(** * PetMatch: [server/download_csv.py]

    A shallow embedding of the download script and the properties of its
    single operation, [download_csv], and of its entry point.

    The script runs on CPython with the [requests] library on a POSIX host
    with a UTF-8 locale: [os.path] is [posixpath], a text file opened with
    the default [newline] writes ['\n'] as it is, and standard output
    encodes what is printed as UTF-8, strictly.  Python values are modelled
    as follows.
    - [int]: [Z].
    - [bytes]: a list of [Z], each in [0, 256).
    - [str]: a list of code points ([Z]); a literal is written [py "..."],
      which decodes the UTF-8 bytes of the Rocq string.
    - the text of an exception, a reason phrase, a URL and the name of a
      charset: a Rocq string, the text in UTF-8, read with [py].  Such text
      holds no lone surrogate: the messages of the exceptions met here
      escape the file names and characters they quote.  A path and the text
      of a body are [str] and may hold some.
    - exceptions: a record of class, message and attached response; a
      computation is a function of the world (file system and standard
      output) to an outcome and a new world.
    - the [float] produced by [total_size / (1024 * 1024)]: a fraction, the
      dividend rounded to 53 bits over the divisor. *)

From Stdlib Require Import ZArith Lia List Ascii Bool.
From Stdlib Require String DecimalString DecimalPos.
Import String.StringSyntax.
Delimit Scope string_scope with string.
Bind Scope string_scope with String.string.
Arguments String.append (s1 s2)%_string.
From stdpp Require Import base option list gmap.

Import ListNotations.
Local Open Scope Z_scope.

(** ** Bytes and text *)

Abbreviation bytes := (list Z) (only parsing).
Abbreviation str := (list Z) (only parsing).

(** [U+FFFD], what a decoder run with [errors="replace"] puts in the place
    of bytes it cannot decode. *)
Definition REPLACEMENT : Z := 0xFFFD.

Module UTF8.

(** [str.encode('utf-8')] for one code point; [None] is
    [UnicodeEncodeError] (a lone surrogate). *)
Definition encode_cp (c : Z) : option bytes :=
  if c <? 0 then None
  else if c <? 0x80 then Some [c]
  else if c <? 0x800 then Some [0xC0 + c / 64; 0x80 + c mod 64]
  else if c <? 0x10000 then
    if (0xD800 <=? c) && (c <=? 0xDFFF) then None
    else Some [0xE0 + c / 4096; 0x80 + (c / 64) mod 64; 0x80 + c mod 64]
  else if c <? 0x110000 then
    Some [0xF0 + c / 262144; 0x80 + (c / 4096) mod 64;
          0x80 + (c / 64) mod 64; 0x80 + c mod 64]
  else None.

(** [s.encode('utf-8')]: the whole string or an error. *)
Fixpoint encode (s : str) : option bytes :=
  match s with
  | [] => Some []
  | c :: r =>
      match encode_cp c, encode r with
      | Some b, Some bs => Some (b ++ bs)
      | _, _ => None
      end
  end.

(** The state of the incremental decoder between two bytes: nothing
    pending, or a sequence that has begun, with the bits read so far, the
    number of continuation bytes still to come and the range allowed for
    the next one. *)
Inductive dstate :=
| Idle
| Pending (acc : Z) (need : nat) (lo hi : Z).

(** A byte met with nothing pending. *)
Definition start (b : Z) : dstate * str :=
  if (0 <=? b) && (b <? 0x80) then (Idle, [b])
  else if (0xC2 <=? b) && (b <=? 0xDF) then (Pending (b - 0xC0) 0 0x80 0xBF, [])
  else if b =? 0xE0 then (Pending (b - 0xE0) 1 0xA0 0xBF, [])
  else if b =? 0xED then (Pending (b - 0xE0) 1 0x80 0x9F, [])
  else if (0xE1 <=? b) && (b <=? 0xEF) then (Pending (b - 0xE0) 1 0x80 0xBF, [])
  else if b =? 0xF0 then (Pending (b - 0xF0) 2 0x90 0xBF, [])
  else if b =? 0xF4 then (Pending (b - 0xF0) 2 0x80 0x8F, [])
  else if (0xF1 <=? b) && (b <=? 0xF3) then (Pending (b - 0xF0) 2 0x80 0xBF, [])
  else (Idle, [REPLACEMENT]).

(** One byte through the decoder.  A byte that cannot continue the pending
    sequence ends it with one [U+FFFD] and is then read afresh. *)
Definition step (st : dstate) (b : Z) : dstate * str :=
  match st with
  | Idle => start b
  | Pending acc need lo hi =>
      if (lo <=? b) && (b <=? hi) then
        let acc' := acc * 64 + (b - 0x80) in
        match need with
        | O => (Idle, [acc'])
        | S n => (Pending acc' n 0x80 0xBF, [])
        end
      else
        let '(st', out) := start b in (st', REPLACEMENT :: out)
  end.

(** [decoder.decode(b"", final=True)]: a sequence cut short is replaced. *)
Definition final (st : dstate) : str :=
  match st with
  | Idle => []
  | Pending _ _ _ _ => [REPLACEMENT]
  end.

(** Well-formed UTF-8 (the Unicode standard's table of well-formed byte
    sequences), as a check on the bytes alone. *)
Definition cont (b : Z) : bool := (0x80 <=? b) && (b <=? 0xBF).

Fixpoint wf (bs : bytes) : bool :=
  match bs with
  | [] => true
  | b0 :: r0 =>
      if (0 <=? b0) && (b0 <? 0x80) then wf r0
      else if (0xC2 <=? b0) && (b0 <=? 0xDF) then
        match r0 with
        | b1 :: r1 => cont b1 && wf r1
        | _ => false
        end
      else if (0xE0 <=? b0) && (b0 <=? 0xEF) then
        match r0 with
        | b1 :: b2 :: r2 =>
            (if b0 =? 0xE0 then (0xA0 <=? b1) && (b1 <=? 0xBF)
             else if b0 =? 0xED then (0x80 <=? b1) && (b1 <=? 0x9F)
             else cont b1)
            && cont b2 && wf r2
        | _ => false
        end
      else if (0xF0 <=? b0) && (b0 <=? 0xF4) then
        match r0 with
        | b1 :: b2 :: b3 :: r3 =>
            (if b0 =? 0xF0 then (0x90 <=? b1) && (b1 <=? 0xBF)
             else if b0 =? 0xF4 then (0x80 <=? b1) && (b1 <=? 0x8F)
             else cont b1)
            && cont b2 && cont b3 && wf r3
        | _ => false
        end
      else false
  end.

End UTF8.

(** ** Codecs

    What [codecs.getincrementaldecoder(name)(errors="replace")] gives for
    the codecs that read their input byte by byte and, with
    [errors="replace"], never raise (UTF-8, ISO-8859-1, ASCII, the code
    pages): a decoder with a state, fed the bytes in order, and flushed at
    the end. *)
Record codec : Type := Codec {
  dec_state : Type;
  dec_init : dec_state;
  dec_step : dec_state -> Z -> dec_state * str;
  dec_final : dec_state -> str
}.

Definition utf_8 : codec :=
  {| dec_state := UTF8.dstate; dec_init := UTF8.Idle;
     dec_step := UTF8.step; dec_final := UTF8.final |}.

(** ISO-8859-1: every byte is the code point of the same number. *)
Definition latin_1 : codec :=
  {| dec_state := unit; dec_init := tt;
     dec_step := fun _ b => (tt, [b]); dec_final := fun _ => [] |}.

(** Any other codec, taken as Python has it: [decoder.decode(input, final)]
    works on a chunk at a time, so that what comes out may depend on where
    the chunks are cut (punycode), and may raise [UnicodeError] in spite of
    [errors="replace"] (UTF-16 without a byte order mark); so may
    [str(content, encoding, errors="replace")] on the whole content.  An
    error is given by its message. *)
Record decoder : Type := Decoder {
  d_state : Type;
  d_init : d_state;
  d_decode : d_state -> bytes -> bool -> (d_state * str) + String.string;
  d_whole : bytes -> str + String.string
}.

(** [decoder.decode(chunk)]: the chunk's bytes through the decoder. *)
Fixpoint decode_chunk (c : codec) (st : dec_state c) (chunk : bytes)
  : dec_state c * str :=
  match chunk with
  | [] => (st, [])
  | b :: r =>
      let '(st1, out1) := dec_step c st b in
      let '(st2, out2) := decode_chunk c st1 r in
      (st2, out1 ++ out2)
  end.

(** [str(content, encoding, errors="replace")]: all at once. *)
Definition decode (c : codec) (content : bytes) : str :=
  let '(st, out) := decode_chunk c (dec_init c) content in
  out ++ dec_final c st.

(** Literals. *)
Fixpoint bytes_of_string (s : String.string) : bytes :=
  match s with
  | String.EmptyString => []
  | String.String a r => Z.of_N (N_of_ascii a) :: bytes_of_string r
  end.

Arguments bytes_of_string s%_string.

Definition py (s : String.string) : str := decode utf_8 (bytes_of_string s).
Arguments py s%_string : simpl never.

Definition nonempty {A} (l : list A) : bool :=
  match l with [] => false | _ => true end.

Definition nonempty_string (s : String.string) : bool :=
  match s with String.EmptyString => false | _ => true end.

Infix "+++" := String.append (right associativity, at level 60).

(** ** Numbers as text *)

(** [str(n)] for an [int], in UTF-8 and as a [str]. *)
Definition string_of_int (n : Z) : String.string :=
  DecimalString.NilZero.string_of_int (Z.to_int n).

Definition str_of_int (n : Z) : str := bytes_of_string (string_of_int n).

(** Four hexadecimal digits, as in ['\\u%04x']. *)
Definition hex_digit (d : Z) : Ascii.ascii :=
  ascii_of_N (Z.to_N (if d <? 10 then 48 + d else 87 + d)).

Definition hex4 (c : Z) : String.string :=
  String.String (hex_digit (c / 4096 mod 16))
    (String.String (hex_digit (c / 256 mod 16))
       (String.String (hex_digit (c / 16 mod 16))
          (String.String (hex_digit (c mod 16)) String.EmptyString))).

(** Where the UTF-8 encoder stops: the position of the first code point it
    cannot encode, that code point, and the end of the run of such code
    points. *)
Fixpoint unencodable_run (s : str) : Z :=
  match s with
  | [] => 0
  | c :: r =>
      match UTF8.encode_cp c with
      | None => 1 + unencodable_run r
      | Some _ => 0
      end
  end.

Fixpoint encode_error_at (s : str) (i : Z) : option (Z * Z * Z) :=
  match s with
  | [] => None
  | c :: r =>
      match UTF8.encode_cp c with
      | Some _ => encode_error_at r (i + 1)
      | None => Some (i, c, i + 1 + unencodable_run r)
      end
  end.

(** [str(e)] for the [UnicodeEncodeError] of encoding [s] as UTF-8. *)
Definition encode_error_msg (s : str) : String.string :=
  match encode_error_at s 0 with
  | Some (i, c, j) =>
      if j =? i + 1 then
        ("'utf-8' codec can't encode character '\u" +++ hex4 c
         +++ "' in position " +++ string_of_int i
         +++ ": surrogates not allowed")%string
      else
        ("'utf-8' codec can't encode characters in position "
         +++ string_of_int i +++ "-" +++ string_of_int (j - 1)
         +++ ": surrogates not allowed")%string
  | None => ""%string
  end.

(** The integer nearest to [a / d] for [d > 0], a tie going to the even
    one. *)
Definition round_half_even (a d : Z) : Z :=
  let q := a / d in
  let r := a mod d in
  if 2 * r <? d then q
  else if d <? 2 * r then q + 1
  else if Z.even q then q else q + 1.

(** A nonnegative [int] as the nearest double: itself below [2^53], above
    it rounded to 53 significant bits. *)
Definition round53 (n : Z) : Z :=
  if n <? 2 ^ 53 then n
  else let k := Z.log2 n - 52 in round_half_even n (2 ^ k) * 2 ^ k.

(** A double that is a fraction [fnum / fden]. *)
Record float := Float { fnum : Z; fden : Z }.

(** [a / b] on nonnegative [int]s, for [b] a power of two, as here
    ([1024 * 1024]): the correctly rounded quotient is the rounded dividend
    over [b].  A dividend of [2^1024] and more, where Python raises
    [OverflowError], is beyond any count of bytes written. *)
Definition truediv (a b : Z) : float := {| fnum := round53 a; fden := b |}.

Definition two_digits (r : Z) : str := [48 + r / 10; 48 + r mod 10].

(** [f"{x:.2f}"] for a nonnegative double: the decimal with two places
    nearest to the double's exact value. *)
Definition format_2f (x : float) : str :=
  let q := round_half_even (100 * fnum x) (fden x) in
  str_of_int (q / 100) ++ py "." ++ two_digits (q mod 100).

(** ** [os.path] on POSIX *)

Module posixpath.

Definition sep : Z := 47.

Definition is_sep (c : Z) : bool := c =? sep.

Definition isabs (p : str) : bool :=
  match p with c :: _ => is_sep c | [] => false end.

Definition endswith_sep (p : str) : bool :=
  match last p with Some c => is_sep c | None => false end.

Definition join (a b : str) : str :=
  if isabs b then b
  else if negb (nonempty a) || endswith_sep a then a ++ b
  else a ++ sep :: b.

Fixpoint dropwhile (f : Z -> bool) (l : str) : str :=
  match l with
  | [] => []
  | c :: r => if f c then dropwhile f r else l
  end.

Definition rstrip_sep (p : str) : str := rev (dropwhile is_sep (rev p)).

(** [p[:p.rfind('/') + 1]] *)
Definition head_of (p : str) : str :=
  rev (dropwhile (fun c => negb (is_sep c)) (rev p)).

Definition dirname (p : str) : str :=
  let head := head_of p in
  if nonempty head && negb (forallb is_sep head) then rstrip_sep head
  else head.

(** [p.split('/')] *)
Fixpoint split (p : str) : list str :=
  match p with
  | [] => [[]]
  | c :: r =>
      if is_sep c then [] :: split r
      else match split r with
           | h :: t => (c :: h) :: t
           | [] => [[c]]
           end
  end.

(** ['/'.join(comps)] *)
Fixpoint join_sep (comps : list str) : str :=
  match comps with
  | [] => []
  | [c] => c
  | c :: r => c ++ sep :: join_sep r
  end.

Definition dot : str := [46].
Definition dotdot : str := [46; 46].

Definition norm_comp (initial_slashes : nat) (new_comps : list str)
  (comp : str) : list str :=
  if bool_decide (comp = []) || bool_decide (comp = dot) then new_comps
  else if negb (bool_decide (comp = dotdot))
          || (bool_decide (initial_slashes = O) && negb (nonempty new_comps))
          || (nonempty new_comps && bool_decide (last new_comps = Some dotdot))
  then new_comps ++ [comp]
  else removelast new_comps.

Definition normpath (path : str) : str :=
  if negb (nonempty path) then dot
  else
    let initial_slashes :=
      match path with
      | c0 :: c1 :: c2 :: _ =>
          if is_sep c0 then
            if is_sep c1 && negb (is_sep c2) then 2%nat else 1%nat
          else 0%nat
      | [c0; c1] => if is_sep c0 then if is_sep c1 then 2%nat else 1%nat
                    else 0%nat
      | [c0] => if is_sep c0 then 1%nat else 0%nat
      | [] => 0%nat
      end in
    let comps := fold_left (norm_comp initial_slashes) (split path) [] in
    let path' := repeat sep initial_slashes ++ join_sep comps in
    if nonempty path' then path' else dot.

(** [os.path.abspath(p)] in the working directory [cwd]. *)
Definition abspath (cwd p : str) : str :=
  normpath (if isabs p then p else join cwd p).

End posixpath.

(** ** Exceptions and HTTP responses *)

(** The exception classes that matter to the two [except] clauses:
    [requests.exceptions.RequestException] with its subclasses, and other
    subclasses of [Exception]. *)
Inductive exn_class :=
| RequestException
| HTTPError
| ConnectionError
| Timeout
| TooManyRedirects
| ChunkedEncodingError
| ContentDecodingError
| SSLError
| OSError
| TypeError
| LookupError
| UnicodeEncodeError
| UnicodeError
| OtherException.

Definition is_RequestException (c : exn_class) : bool :=
  match c with
  | RequestException | HTTPError | ConnectionError | Timeout
  | TooManyRedirects | ChunkedEncodingError | ContentDecodingError
  | SSLError => true
  | _ => false
  end.

(** Every class above derives from [Exception]. *)
Definition is_Exception (c : exn_class) : bool := true.

(** An error as the operating system or the network gives it: a class and
    the text [str(e)]. *)
Record fault := Fault { fault_class : exn_class; fault_msg : String.string }.

(** [r.encoding]: a name Python has a codec for, of the kind that reads
    byte by byte or of another kind, or a name it has none for. *)
Inductive charset :=
| Registered (c : codec)
| Chunkwise (d : decoder)
| Unregistered (name : String.string).

(** A [requests.Response] obtained with [stream=True].  [raw] is what
    [r.raw.stream(chunk_size)] yields, in order, and [raw_error] the error
    the transfer ends with when it does not complete, as [iter_content]
    raises it. *)
Record Response := {
  status_code : Z;
  reason : String.string;
  url : String.string;
  encoding : option charset;
  apparent_encoding : option codec;
  raw : list bytes;
  raw_error : option fault
}.

Record exn := Exn {
  exn_cls : exn_class;
  exn_msg : String.string;
  exn_response : option Response
}.

Definition exn_of_fault (f : fault) : exn :=
  {| exn_cls := fault_class f; exn_msg := fault_msg f;
     exn_response := None |}.

(** ** The world, and computations in it *)

Record World := {
  fs : gmap (list Z) (list Z);
  stdout : list (list Z)
}.

Inductive outcome (A : Type) :=
| Return (a : A)
| Raise (e : exn).
Arguments Return {A} a.
Arguments Raise {A} e.

Definition M (A : Type) : Type := World -> outcome A * World.

#[global] Instance M_ret : MRet M := fun A a w => (Return a, w).

#[global] Instance M_bind : MBind M := fun A B f m w =>
  match m w with
  | (Return a, w') => f a w'
  | (Raise e, w') => (Raise e, w')
  end.

Definition raise {A} (e : exn) : M A := fun w => (Raise e, w).

Definition lift {A} (o : outcome A) : M A := fun w => (o, w).

(** [try: body  except C1 as e: h1  except C2 as e: h2 ...]: the first
    clause whose class the exception is an instance of handles it; an
    exception raised by a handler is not handled again. *)
Fixpoint dispatch {A} (handlers : list ((exn_class -> bool) * (exn -> M A)))
  (e : exn) : M A :=
  match handlers with
  | [] => raise e
  | (isinstance, h) :: rest =>
      if isinstance (exn_cls e) then h e else dispatch rest e
  end.

Definition try_except {A} (body : M A)
  (handlers : list ((exn_class -> bool) * (exn -> M A))) : M A :=
  fun w =>
    match body w with
    | (Return a, w') => (Return a, w')
    | (Raise e, w') => dispatch handlers e w'
    end.

(** The [UnicodeEncodeError] of encoding [s] as UTF-8. *)
Definition unicode_encode_error (s : str) : exn :=
  {| exn_cls := UnicodeEncodeError; exn_msg := encode_error_msg s;
     exn_response := None |}.

(** [print(line)]: the line is encoded for standard output before any of
    it is written, and a line that cannot be encoded, one that holds a lone
    surrogate, raises and prints nothing. *)
Definition print (line : str) : M unit :=
  fun w =>
    match UTF8.encode line with
    | Some _ => (Return tt, {| fs := fs w; stdout := stdout w ++ [line] |})
    | None => (Raise (unicode_encode_error line), w)
    end.

(** ** The host and the server *)

Record Request := {
  req_url : str;
  req_headers : list (str * str);
  req_stream : bool
}.

(** What the script is given: its own [__file__], the working directory,
    what [requests.get] does with a request (redirects followed), and the
    paths that cannot be opened for writing, with the error. *)
Record Env := {
  script_file : str;
  getcwd : str;
  http_get : Request -> outcome Response;
  open_error : str -> option fault
}.

(** ** [requests] *)

Definition requests_get (env : Env) (u : str) (headers : list (str * str))
  (stream : bool) : M Response :=
  lift (http_get env
          {| req_url := u; req_headers := headers; req_stream := stream |}).

(** The message [Response.raise_for_status] builds: empty unless the
    status is a client error (4xx) or a server error (5xx). *)
Definition http_error_msg (r : Response) : String.string :=
  if (400 <=? status_code r) && (status_code r <? 500) then
    (string_of_int (status_code r) +++ " Client Error: " +++ reason r
     +++ " for url: " +++ url r)%string
  else if (500 <=? status_code r) && (status_code r <? 600) then
    (string_of_int (status_code r) +++ " Server Error: " +++ reason r
     +++ " for url: " +++ url r)%string
  else ""%string.

(** [Response.raise_for_status] *)
Definition raise_for_status (r : Response) : M unit :=
  if nonempty_string (http_error_msg r) then
    raise {| exn_cls := HTTPError; exn_msg := http_error_msg r;
             exn_response := Some r |}
  else mret tt.

(** What a response's iterator yields: [bytes], or [str] once decoded. *)
Inductive chunk :=
| Bytes (b : bytes)
| Text (s : str).

Definition truthy (c : chunk) : bool :=
  match c with Bytes b => nonempty b | Text s => nonempty s end.

(** A generator run to its end: the items it yields, and the exception it
    ends with if it does not end normally. *)
Definition generator (A : Type) : Type := list A * option exn.

(** The decoding loop of [stream_decode_response_unicode]: each chunk
    through the decoder, what comes out yielded when not empty. *)
Fixpoint decode_stream (c : codec) (st : dec_state c) (chunks : list bytes)
  : list str * dec_state c :=
  match chunks with
  | [] => ([], st)
  | ch :: rest =>
      let '(st1, rv) := decode_chunk c st ch in
      let '(outs, st2) := decode_stream c st1 rest in
      ((if nonempty rv then [rv] else []) ++ outs, st2)
  end.

(** The [UnicodeError] a decoder raises. *)
Definition unicode_error (m : String.string) : exn :=
  {| exn_cls := UnicodeError; exn_msg := m; exn_response := None |}.

(** The same loop for a decoder that works chunk by chunk: it stops at the
    chunk on which the decoder raises. *)
Fixpoint decode_stream_with (d : decoder) (st : d_state d)
  (chunks : list bytes) : list str * (d_state d + String.string) :=
  match chunks with
  | [] => ([], inl st)
  | ch :: rest =>
      match d_decode d st ch false with
      | inr m => ([], inr m)
      | inl (st1, rv) =>
          let '(outs, end_) := decode_stream_with d st1 rest in
          ((if nonempty rv then [rv] else []) ++ outs, end_)
      end
  end.

Definition stream_decode_response_unicode (iterator : generator bytes)
  (r : Response) : generator chunk :=
  match encoding r with
  | None => (map Bytes (fst iterator), snd iterator)
  | Some (Unregistered name) =>
      ([], Some {| exn_cls := LookupError;
                   exn_msg := "unknown encoding: " +++ name;
                   exn_response := None |})
  | Some (Registered c) =>
      let '(outs, st) := decode_stream c (dec_init c) (fst iterator) in
      match snd iterator with
      | Some e => (map Text outs, Some e)
      | None =>
          let rv := dec_final c st in
          (map Text (outs ++ if nonempty rv then [rv] else []), None)
      end
  | Some (Chunkwise d) =>
      let '(outs, end_) := decode_stream_with d (d_init d) (fst iterator) in
      match end_ with
      | inr m => (map Text outs, Some (unicode_error m))
      | inl st =>
          match snd iterator with
          | Some e => (map Text outs, Some e)
          | None =>
              match d_decode d st [] true with
              | inr m => (map Text outs, Some (unicode_error m))
              | inl (_, rv) =>
                  (map Text (outs ++ if nonempty rv then [rv] else []), None)
              end
          end
      end
  end.

(** [Response.iter_content] on a response not read yet. *)
Definition iter_content (r : Response) (chunk_size : Z)
  (decode_unicode : bool) : generator chunk :=
  let chunks : generator bytes := (raw r, exn_of_fault <$> raw_error r) in
  if decode_unicode then stream_decode_response_unicode chunks r
  else (map Bytes (fst chunks), snd chunks).

(** [Response.content]: the whole body, read now. *)
Definition content (r : Response) : outcome bytes :=
  match raw_error r with
  | Some f => Raise (exn_of_fault f)
  | None => Return (concat (raw r))
  end.

(** [Response.text]: the body decoded with the declared encoding, with
    the guessed one when none is declared, and as UTF-8 when that fails
    with [LookupError] or [TypeError]; a [UnicodeError] of the decoding is
    not caught there. *)
Definition text (r : Response) : outcome str :=
  match content r with
  | Raise e => Raise e
  | Return c =>
      if negb (nonempty c) then Return []
      else
        match encoding r with
        | Some (Registered cd) => Return (decode cd c)
        | Some (Chunkwise d) =>
            match d_whole d c with
            | inl t => Return t
            | inr m => Raise (unicode_error m)
            end
        | Some (Unregistered _) => Return (decode utf_8 c)
        | None =>
            match apparent_encoding r with
            | Some cd => Return (decode cd c)
            | None => Return (decode utf_8 c)
            end
        end
  end.

(** ** Files *)

(** [open(path, 'w', encoding='utf-8')]: the file is created, or emptied if
    it is there.  The handle is the path. *)
Definition open_w (env : Env) (path : str) : M str :=
  fun w =>
    match open_error env path with
    | Some f => (Raise (exn_of_fault f), w)
    | None =>
        (Return path, {| fs := <[path := []]> (fs w); stdout := stdout w |})
    end.

(** [f.write(chunk)] on a text file: the text is encoded and appended.
    What is written is in the file when the [with] block is left, normally
    or by an exception, so it is put there at once.  A file that has been
    opened takes what is written to it: an error of the device (a full
    disk) is left out. *)
Definition write (f : str) (c : chunk) : M unit :=
  match c with
  | Bytes _ =>
      raise {| exn_cls := TypeError;
               exn_msg := "write() argument must be str, not bytes";
               exn_response := None |}
  | Text s =>
      match UTF8.encode s with
      | None => raise (unicode_encode_error s)
      | Some b =>
          fun w =>
            (Return tt,
             {| fs := <[f := default [] (fs w !! f) ++ b]> (fs w);
                stdout := stdout w |})
      end
  end.

(** [len(chunk.encode('utf-8'))] *)
Definition encoded_len (c : chunk) : M Z :=
  match c with
  | Bytes _ =>
      raise {| exn_cls := OtherException;
               exn_msg := "'bytes' object has no attribute 'encode'";
               exn_response := None |}
  | Text s =>
      match UTF8.encode s with
      | None => raise (unicode_encode_error s)
      | Some b => mret (Z.of_nat (length b))
      end
  end.

(** [for x in g: s = body(s, x)], with [s] the variables the body
    updates. *)
Fixpoint for_items {A S} (items : list A) (body : S -> A -> M S) (s : S)
  : M S :=
  match items with
  | [] => mret s
  | x :: rest => s' ← body s x; for_items rest body s'
  end.

Definition for_in {A S} (g : generator A) (body : S -> A -> M S) (s : S)
  : M S :=
  s' ← for_items (fst g) body s;
  match snd g with
  | Some e => raise e
  | None => mret s'
  end.

(** ** The script *)

Definition BASE_URL : str :=
  py "https://petfinder-database-distributor.onrender.com".
Definition API_KEY : str := py "3h4hdfbhdfesnfsd2439DSFNUIFGSDBJHF".

(** Lines 29 to 31: where the file goes. *)
Definition csv_path (env : Env) : str :=
  let script_dir :=
    posixpath.dirname (posixpath.abspath (getcwd env) (script_file env)) in
  let project_root := posixpath.dirname script_dir in
  posixpath.join project_root (py "pets.csv").

(** Line 37 to 39: the body of the loop. *)
Definition write_chunk (f : str) (total_size : Z) (c : chunk) : M Z :=
  if truthy c then
    write f c;;
    n ← encoded_len c;
    mret (total_size + n)
  else mret total_size.

(** Lines 34 to 39: the file written from the response; the value is
    [total_size]. *)
Definition save_response (env : Env) (response : Response) (path : str)
  : M Z :=
  let total_size := 0 in
  f ← open_w env path;
  for_in (iter_content response 8192 true) (write_chunk f) total_size.

(** Lines 50 to 55. *)
Definition on_request_exception (e : exn) : M bool :=
  print (py "✗ Error downloading CSV: " ++ py (exn_msg e));;
  match exn_response e with
  | Some r =>
      print (py "  Status code: " ++ str_of_int (status_code r));;
      t ← lift (text r);
      print (py "  Response: " ++ take 200 t)
  | None => mret tt
  end;;
  mret false.

(** Lines 56 to 58. *)
Definition on_exception (e : exn) : M bool :=
  print (py "✗ Unexpected error: " ++ py (exn_msg e));;
  mret false.

Definition download_csv (env : Env) : M bool :=
  try_except
    (print (py "Downloading latest CSV from API...");;
     let headers := [(py "X-API-Key", API_KEY)] in
     response ← requests_get env (BASE_URL ++ py "/pets.csv") headers true;
     raise_for_status response;;
     let csv_path := csv_path env in
     total_size ← save_response env response csv_path;
     let file_size_mb := truediv total_size (1024 * 1024) in
     print (py "✓ CSV downloaded successfully!");;
     print (py "  File: " ++ csv_path);;
     print (py "  Size: " ++ format_2f file_size_mb ++ py " MB");;
     mret true)
    [(is_RequestException, on_request_exception);
     (is_Exception, on_exception)].

(** How the process ends: [sys.exit(code)], or an exception nothing
    caught, which the interpreter turns into status 1. *)
Inductive termination :=
| SystemExit (code : Z)
| Uncaught (e : exn).

(** Lines 60 to 62. *)
Definition main (env : Env) (w : World) : termination * World :=
  match download_csv env w with
  | (Return success, w') => (SystemExit (if success then 0 else 1), w')
  | (Raise e, w') => (Uncaught e, w')
  end.

Definition exit_status (t : termination) : Z :=
  match t with
  | SystemExit code => code
  | Uncaught _ => 1
  end.

(** ** Sample hosts and servers *)

Definition the_request : Request :=
  {| req_url := BASE_URL ++ py "/pets.csv";
     req_headers := [(py "X-API-Key", API_KEY)];
     req_stream := true |}.

Definition PETS_URL : String.string :=
  "https://petfinder-database-distributor.onrender.com/pets.csv".

Definition ok_response (enc : option charset) (chunks : list bytes)
  : Response :=
  {| status_code := 200; reason := "OK"; url := PETS_URL;
     encoding := enc; apparent_encoding := Some utf_8;
     raw := chunks; raw_error := None |}.

Definition sample_env (o : outcome Response) : Env :=
  {| script_file := py "/srv/PetMatch/server/download_csv.py";
     getcwd := py "/home/pets";
     http_get := fun _ => o;
     open_error := fun _ => None |}.

Definition empty_world : World := {| fs := ∅; stdout := [] |}.

(** ["name,age\nRex,3\n"] *)
Definition sample_csv : bytes :=
  bytes_of_string "name,age" ++ [10] ++ bytes_of_string "Rex,3" ++ [10].

(** ** Words of the specification *)

Definition body (r : Response) : bytes := concat (raw r).

(** A status [raise_for_status] raises for: 4xx and 5xx. *)
Definition is_error_status (sc : Z) : bool := (400 <=? sc) && (sc <? 600).

(** What a decoder that works chunk by chunk gives for the chunks in
    order and the final flush, when it does not raise. *)
Definition decoded_chunkwise (d : decoder) (chunks : list bytes)
  : option str :=
  match decode_stream_with d (d_init d) chunks with
  | (outs, inl st) =>
      match d_decode d st [] true with
      | inl (_, rv) => Some (concat outs ++ rv)
      | inr _ => None
      end
  | (_, inr _) => None
  end.

(** The body decoded from the declared encoding and encoded again as
    UTF-8, in one piece: what a run that succeeds leaves in the file.
    With no encoding declared only an empty body can be written, and with
    one Python has no codec for, nothing.  With a decoder that works chunk
    by chunk it is the chunks that are decoded, one by one. *)
Definition reencoded (r : Response) : option bytes :=
  match encoding r with
  | Some (Registered c) => UTF8.encode (decode c (body r))
  | Some (Chunkwise d) =>
      match decoded_chunkwise d (raw r) with
      | Some s => UTF8.encode s
      | None => None
      end
  | Some (Unregistered _) => None
  | None => if nonempty (body r) then None else Some []
  end.

(** Bodies that decoding and encoding again leave as they are: well-formed
    UTF-8 declared as UTF-8, and ASCII declared as ISO-8859-1 (what
    [requests] takes a [text/...] type without a charset to be). *)
Definition passes_through (r : Response) : Prop :=
  (encoding r = Some (Registered utf_8) /\ UTF8.wf (body r) = true)
  \/ (encoding r = Some (Registered latin_1)
      /\ Forall (fun b => 0 <= b < 128) (body r)).


(** The same host with another working directory. *)
Definition chdir (env : Env) (cwd : str) : Env :=
  {| script_file := script_file env; getcwd := cwd;
     http_get := http_get env; open_error := open_error env |}.

(** The lines a successful run prints after the first. *)
Definition success_lines (path : str) (total_size : Z) : list str :=
  [py "✓ CSV downloaded successfully!";
   py "  File: " ++ path;
   py "  Size: " ++ format_2f (truediv total_size (1024 * 1024)) ++ py " MB"].

Definition put_lines (w : World) (lines : list str) : World :=
  {| fs := fs w; stdout := stdout w ++ lines |}.

Definition put_file (w : World) (path : str) (b : bytes) : World :=
  {| fs := <[path := b]> (fs w); stdout := stdout w |}.

(** The world a successful run leaves when it has written [b]. *)
Definition success_world (env : Env) (w : World) (b : bytes) : World :=
  {| fs := <[csv_path env := b]> (fs w);
     stdout := stdout w
               ++ py "Downloading latest CSV from API..."
                  :: success_lines (csv_path env) (Z.of_nat (length b)) |}.

Definition handlers : list ((exn_class -> bool) * (exn -> M bool)) :=
  [(is_RequestException, on_request_exception); (is_Exception, on_exception)].

(** ** Servers and hosts the properties are tried on *)

(** A server that declares ISO-8859-1 and sends ["Jos\xe9"], four bytes. *)
Definition jose_latin_1 : Response :=
  ok_response (Some (Registered latin_1)) [[74; 111; 115; 233]].

(** 304 Not Modified, with no body and no content type. *)
Definition not_modified : Response :=
  {| status_code := 304; reason := "Not Modified";
     url := PETS_URL; encoding := None; apparent_encoding := None;
     raw := []; raw_error := None |}.

(** 300 Multiple Choices, with a body in UTF-8. *)
Definition multiple_choices : Response :=
  {| status_code := 300; reason := "Multiple Choices";
     url := PETS_URL; encoding := Some (Registered utf_8);
     apparent_encoding := Some utf_8;
     raw := [bytes_of_string "pets.csv.gz"]; raw_error := None |}.

(** 401 Unauthorized, with a body in UTF-8. *)
Definition unauthorized : Response :=
  {| status_code := 401; reason := "Unauthorized";
     url := PETS_URL; encoding := Some (Registered utf_8);
     apparent_encoding := Some utf_8;
     raw := [bytes_of_string "bad "; bytes_of_string "key"];
     raw_error := None |}.

(** 500, and the connection breaks while the body of the error is read. *)
Definition broken_error : Response :=
  {| status_code := 500; reason := "Internal Server Error";
     url := PETS_URL; encoding := Some (Registered utf_8);
     apparent_encoding := Some utf_8;
     raw := [bytes_of_string "<html>"];
     raw_error := Some {| fault_class := ChunkedEncodingError;
                          fault_msg := "Connection broken" |} |}.



(** A world where [pets.csv] is there from an earlier run. *)
Definition old_world : World :=
  {| fs := {[ py "/srv/PetMatch/pets.csv" := sample_csv ]}; stdout := [] |}.

(** ** Statements of the specification the code does not meet as worded *)

(** The file is the body, byte for byte, after any response with a 2xx
    status. *)
Definition saved_verbatim (env : Env) (w : World) : Prop :=
  forall r, http_get env the_request = Return r ->
    200 <= status_code r < 300 ->
    fs (snd (download_csv env w)) !! csv_path env = Some (body r).

(** Any status outside 2xx is a failure that leaves the files alone. *)
Definition non_2xx_keeps_file (env : Env) (w : World) : Prop :=
  forall r, http_get env the_request = Return r ->
    ~ 200 <= status_code r < 300 ->
    fst (download_csv env w) = Return false
    /\ fs (snd (download_csv env w)) = fs w.

(** Any status outside 2xx is a failure reported with the status and the
    start of the body. *)
Definition non_2xx_reported (env : Env) (w : World) : Prop :=
  forall r, http_get env the_request = Return r ->
    ~ 200 <= status_code r < 300 ->
    fst (download_csv env w) = Return false
    /\ In (py "  Status code: " ++ str_of_int (status_code r))
          (stdout (snd (download_csv env w))).



(** The caller can read the number of bytes written off the value
    returned. *)
Definition returns_byte_count : Prop :=
  exists count : bool -> Z,
    forall env w w' v b,
      download_csv env w = (Return v, w') ->
      fs w' !! csv_path env = Some b ->
      count v = Z.of_nat (length b).

(** After two runs that succeed the file is the second body. *)
Definition second_body_verbatim (env1 env2 : Env) (w : World) : Prop :=
  forall rB,
    http_get env2 the_request = Return rB ->
    fst (download_csv env1 w) = Return true ->
    fst (download_csv env2 (snd (download_csv env1 w))) = Return true ->
    fs (snd (download_csv env2 (snd (download_csv env1 w)))) !! csv_path env2
    = Some (body rB).

(** ** Further words for the runs that fail and for what is written *)

(** The line a handler prints first for an exception. *)
Definition failure_line (e : exn) : str :=
  (if is_RequestException (exn_cls e) then py "✗ Error downloading CSV: "
   else py "✗ Unexpected error: ") ++ py (exn_msg e).

(** The world left when the file is saved and its path cannot be
    printed. *)
Definition saved_unprinted (env : Env) (w : World) (b : bytes) : World :=
  {| fs := <[csv_path env := b]> (fs w);
     stdout := stdout w
               ++ [py "Downloading latest CSV from API...";
                   py "✓ CSV downloaded successfully!";
                   failure_line
                     (unicode_encode_error (py "  File: " ++ csv_path env))]
  |}.

(** A Unicode scalar value: a code point that is not a surrogate. *)
Definition scalar (c : Z) : bool :=
  (0 <=? c) && (c <? 0x110000) && negb ((0xD800 <=? c) && (c <=? 0xDFFF)).

(** Text that standard output, and a text file in UTF-8, can take: no
    lone surrogate in it. *)
Definition printable (s : str) : bool := forallb scalar s.

(** The number a row of decimal digits reads as. *)
Fixpoint decimal_value_from (acc : Z) (s : str) : option Z :=
  match s with
  | [] => Some acc
  | c :: r =>
      if (48 <=? c) && (c <=? 57)
      then decimal_value_from (acc * 10 + (c - 48)) r
      else None
  end.

Definition decimal_value (s : str) : option Z :=
  match s with
  | [] => None
  | _ => decimal_value_from 0 s
  end.




(** A pending sequence that can only end in a scalar value, whatever
    bytes continue it. *)
Fixpoint pending_ok (need : nat) (acc lo hi : Z) : Prop :=
  match need with
  | O => forall b, lo <= b <= hi -> scalar (acc * 64 + (b - 0x80)) = true
  | S n => forall b, lo <= b <= hi ->
             pending_ok n (acc * 64 + (b - 0x80)) 0x80 0xBF
  end.

Definition decoder_ok (st : UTF8.dstate) : Prop :=
  match st with
  | UTF8.Idle => True
  | UTF8.Pending acc need lo hi => pending_ok need acc lo hi
  end.

(** What the decoder has given for the bytes received, nothing flushed. *)
Definition decoded_so_far (c : codec) (received : bytes) : str :=
  snd (decode_chunk c (dec_init c) received).

(** The bytes of 128 and more. *)
Definition high_bytes (b : bytes) : bytes :=
  List.filter (fun x => 128 <=? x) b.

(** The exception [f.write] raises for [bytes]. *)
Definition write_bytes_error : exn :=
  {| exn_cls := TypeError;
     exn_msg := "write() argument must be str, not bytes";
     exn_response := None |}.

(** A connection that cannot be made, a file that cannot be opened, and a
    transfer cut after its first chunk. *)
Definition connection_refused : exn :=
  {| exn_cls := ConnectionError; exn_msg := "Connection refused";
     exn_response := None |}.

Definition read_only_env (o : outcome Response) : Env :=
  {| script_file := py "/srv/PetMatch/server/download_csv.py";
     getcwd := py "/home/pets";
     http_get := fun _ => o;
     open_error := fun _ => Some {| fault_class := OSError;
                                    fault_msg := "Permission denied" |} |}.

Definition cut_transfer : Response :=
  {| status_code := 200; reason := "OK"; url := PETS_URL;
     encoding := Some (Registered utf_8); apparent_encoding := Some utf_8;
     raw := [bytes_of_string "name,age"];
     raw_error := Some {| fault_class := ChunkedEncodingError;
                          fault_msg := "Connection broken" |} |}.

(** A decoder known on one input only: as [unicode_escape] does, it gives
    the lone surrogate [U+D800] for the six bytes of [\ud800]; other
    inputs are not tabulated.  And a 500 whose body is these six bytes,
    declared in that encoding. *)
Definition escaped_surrogate : decoder :=
  {| d_state := unit; d_init := tt;
     d_decode := fun _ _ _ => inr "not tabulated"%string;
     d_whole := fun bs =>
       if bool_decide (bs = [92; 117; 100; 56; 48; 48]) then inl [0xD800]
       else inr "not tabulated"%string |}.

Definition surrogate_error : Response :=
  {| status_code := 500; reason := "Internal Server Error";
     url := PETS_URL; encoding := Some (Chunkwise escaped_surrogate);
     apparent_encoding := Some utf_8;
     raw := [[92; 117; 100; 56; 48; 48]]; raw_error := None |}.

(** A host where the directory of the project has a name that is not
    UTF-8, the byte [0xE9], which Python holds as the lone surrogate
    [U+DCE9]. *)
Definition surrogate_path_env (o : outcome Response) : Env :=
  {| script_file := py "/srv/" ++ [0xDCE9] ++ py "/server/download_csv.py";
     getcwd := py "/home/pets";
     http_get := fun _ => o;
     open_error := fun _ => None |}.

(** The same host with a server that answers [r]. *)
Definition answering (env : Env) (r : Response) : Env :=
  {| script_file := script_file env; getcwd := getcwd env;
     http_get := fun _ => Return r; open_error := open_error env |}.

(** The marks that open the line of a success and of a failure. *)
Definition CHECK_MARK : Z := 0x2713.
Definition BALLOT_X : Z := 0x2717.

(** * Properties *)

#[global] Arguments str_of_int : simpl never.
#[global] Arguments format_2f : simpl never.
#[global] Arguments csv_path : simpl never.

(** ** Comparisons on [Z] *)

Ltac zcase :=
  match goal with
  | |- context [?a <=? ?b] => destruct (Z.leb_spec a b)
  | |- context [?a <? ?b] => destruct (Z.ltb_spec a b)
  | |- context [?a =? ?b] => destruct (Z.eqb_spec a b)
  end.

Ltac zcases := repeat (zcase; simpl; try lia); try reflexivity.

Ltac zhyp :=
  repeat match goal with
  | H : _ && _ = true |- _ => apply andb_true_iff in H; destruct H
  | H : (_ <=? _) = true |- _ => apply Z.leb_le in H
  | H : (_ <? _) = true |- _ => apply Z.ltb_lt in H
  | H : (_ =? _) = true |- _ => apply Z.eqb_eq in H
  | H : (_ <=? _) = false |- _ => apply Z.leb_gt in H
  | H : (_ <? _) = false |- _ => apply Z.ltb_ge in H
  | H : (_ =? _) = false |- _ => apply Z.eqb_neq in H
  end.

(** ** UTF-8 *)

Module UTF8_facts.
Import UTF8.

Lemma encode_app (s t : str) :
  encode (s ++ t) =
  match encode s, encode t with
  | Some a, Some b => Some (a ++ b)
  | _, _ => None
  end.
Proof.
  induction s as [|c s IH]; simpl.
  - destruct (encode t); reflexivity.
  - rewrite IH. destruct (encode_cp c), (encode s), (encode t); simpl;
      try reflexivity.
    now rewrite app_assoc.
Qed.

Lemma encode_app_Some (s t : str) (a b : bytes) :
  encode s = Some a -> encode t = Some b -> encode (s ++ t) = Some (a ++ b).
Proof. intros Hs Ht. now rewrite encode_app, Hs, Ht. Qed.

Lemma encode_app_inv (s t : str) (c : bytes) :
  encode (s ++ t) = Some c ->
  exists a b, encode s = Some a /\ encode t = Some b /\ c = a ++ b.
Proof.
  rewrite encode_app. destruct (encode s) as [a|], (encode t) as [b|];
    try discriminate.
  intros [= <-]. now exists a, b.
Qed.

(** What the encoder produces for one code point is one well-formed
    sequence. *)
Lemma wf_encode_cp (c : Z) (b rest : bytes) :
  encode_cp c = Some b -> wf (b ++ rest) = wf rest.
Proof.
  unfold encode_cp.
  destruct (Z.ltb_spec c 0); [discriminate|].
  destruct (Z.ltb_spec c 0x80).
  { intros [= <-]. simpl. zcases. }
  destruct (Z.ltb_spec c 0x800).
  { intros [= <-]. simpl. unfold cont.
    assert (0xC2 <= 0xC0 + c / 64 <= 0xDF /\ 0 <= c mod 64 < 64)
      by (Z.div_mod_to_equations; lia).
    zcases. }
  destruct (Z.ltb_spec c 0x10000).
  { destruct (Z.leb_spec 0xD800 c), (Z.leb_spec c 0xDFFF); simpl;
      try discriminate; intros [= <-]; simpl; unfold cont;
      assert (0xE0 <= 0xE0 + c / 4096 <= 0xEF /\ 0 <= (c / 64) mod 64 < 64
              /\ 0 <= c mod 64 < 64
              /\ (0xE0 + c / 4096 = 0xE0 -> 0x20 <= (c / 64) mod 64)
              /\ (0xE0 + c / 4096 = 0xED -> (c / 64) mod 64 < 0x20))
        by (Z.div_mod_to_equations; lia);
      zcases. }
  destruct (Z.ltb_spec c 0x110000); [|discriminate].
  intros [= <-]; simpl; unfold cont.
  assert (0xF0 <= 0xF0 + c / 262144 <= 0xF4 /\ 0 <= (c / 4096) mod 64 < 64
          /\ 0 <= (c / 64) mod 64 < 64 /\ 0 <= c mod 64 < 64
          /\ (0xF0 + c / 262144 = 0xF0 -> 0x10 <= (c / 4096) mod 64)
          /\ (0xF0 + c / 262144 = 0xF4 -> (c / 4096) mod 64 < 0x10))
    by (Z.div_mod_to_equations; lia).
  zcases.
Qed.

(** The encoder's output is well-formed UTF-8. *)
Lemma wf_encode (s : str) (b : bytes) : encode s = Some b -> wf b = true.
Proof.
  revert b. induction s as [|c s IH]; simpl; intros b.
  - now intros [= <-].
  - destruct (encode_cp c) as [bc|] eqn:Hc; [|discriminate].
    destruct (encode s) as [bs|]; [|discriminate].
    intros [= <-]. rewrite (wf_encode_cp _ _ _ Hc). now apply IH.
Qed.

Lemma start_1 (b : Z) : 0 <= b < 0x80 -> start b = (Idle, [b]).
Proof. intros. unfold start. zcases. Qed.

Lemma start_2 (b : Z) :
  0xC2 <= b <= 0xDF -> start b = (Pending (b - 0xC0) 0 0x80 0xBF, []).
Proof. intros. unfold start. zcases. Qed.

Lemma start_3 (b : Z) :
  0xE0 <= b <= 0xEF ->
  start b = (Pending (b - 0xE0) 1 (if b =? 0xE0 then 0xA0 else 0x80)
               (if b =? 0xED then 0x9F else 0xBF), []).
Proof. intros. unfold start. zcases. Qed.

Lemma start_4 (b : Z) :
  0xF0 <= b <= 0xF4 ->
  start b = (Pending (b - 0xF0) 2 (if b =? 0xF0 then 0x90 else 0x80)
               (if b =? 0xF4 then 0x8F else 0xBF), []).
Proof. intros. unfold start. zcases. Qed.

Lemma step_continue (acc : Z) (need : nat) (lo hi b : Z) :
  lo <= b <= hi ->
  step (Pending acc need lo hi) b =
  match need with
  | O => (Idle, [acc * 64 + (b - 0x80)])
  | S n => (Pending (acc * 64 + (b - 0x80)) n 0x80 0xBF, [])
  end.
Proof. intros. unfold step. zcases. Qed.

Lemma decode_chunk_cons (c : codec) (st : dec_state c) (b : Z) (r : bytes) :
  decode_chunk c st (b :: r) =
  let '(st1, out1) := dec_step c st b in
  let '(st2, out2) := decode_chunk c st1 r in
  (st2, out1 ++ out2).
Proof. reflexivity. Qed.

(** The decoder on one well-formed sequence of each length: the code point
    comes out and the decoder is idle again. *)
Ltac feed lem :=
  rewrite decode_chunk_cons; cbn [dec_step utf_8];
  rewrite lem by lia; cbv beta iota zeta.

Lemma decode_seq_1 (b0 : Z) (r : bytes) :
  0 <= b0 < 0x80 ->
  decode_chunk utf_8 Idle (b0 :: r) =
  let '(st, s) := decode_chunk utf_8 Idle r in (st, b0 :: s).
Proof.
  intros. change (@Idle) with (dec_init utf_8).
  rewrite decode_chunk_cons; cbn [dec_step dec_init utf_8 step].
  rewrite start_1 by lia. reflexivity.
Qed.

Lemma decode_seq_2 (b0 b1 : Z) (r : bytes) :
  0xC2 <= b0 <= 0xDF -> 0x80 <= b1 <= 0xBF ->
  decode_chunk utf_8 Idle (b0 :: b1 :: r) =
  let '(st, s) := decode_chunk utf_8 Idle r in
  (st, ((b0 - 0xC0) * 64 + (b1 - 0x80)) :: s).
Proof.
  intros. rewrite decode_chunk_cons; cbn [dec_step utf_8].
  change (step Idle b0) with (start b0). rewrite start_2 by lia.
  cbv beta iota zeta. feed step_continue.
  now destruct (decode_chunk utf_8 Idle r).
Qed.

Lemma decode_seq_3 (b0 b1 b2 : Z) (r : bytes) :
  0xE0 <= b0 <= 0xEF ->
  (if b0 =? 0xE0 then 0xA0 else 0x80) <= b1
    <= (if b0 =? 0xED then 0x9F else 0xBF) ->
  0x80 <= b2 <= 0xBF ->
  decode_chunk utf_8 Idle (b0 :: b1 :: b2 :: r) =
  let '(st, s) := decode_chunk utf_8 Idle r in
  (st, (((b0 - 0xE0) * 64 + (b1 - 0x80)) * 64 + (b2 - 0x80)) :: s).
Proof.
  intros. rewrite decode_chunk_cons; cbn [dec_step utf_8].
  change (step Idle b0) with (start b0). rewrite start_3 by lia.
  cbv beta iota zeta. feed step_continue. feed step_continue.
  now destruct (decode_chunk utf_8 Idle r).
Qed.

Lemma decode_seq_4 (b0 b1 b2 b3 : Z) (r : bytes) :
  0xF0 <= b0 <= 0xF4 ->
  (if b0 =? 0xF0 then 0x90 else 0x80) <= b1
    <= (if b0 =? 0xF4 then 0x8F else 0xBF) ->
  0x80 <= b2 <= 0xBF -> 0x80 <= b3 <= 0xBF ->
  decode_chunk utf_8 Idle (b0 :: b1 :: b2 :: b3 :: r) =
  let '(st, s) := decode_chunk utf_8 Idle r in
  (st, ((((b0 - 0xF0) * 64 + (b1 - 0x80)) * 64 + (b2 - 0x80)) * 64
        + (b3 - 0x80)) :: s).
Proof.
  intros. rewrite decode_chunk_cons; cbn [dec_step utf_8].
  change (step Idle b0) with (start b0). rewrite start_4 by lia.
  cbv beta iota zeta. feed step_continue. feed step_continue.
  feed step_continue.
  now destruct (decode_chunk utf_8 Idle r).
Qed.

(** Encoding the code point of a well-formed sequence gives the sequence
    back. *)
Lemma encode_seq_1 (b0 : Z) : 0 <= b0 < 0x80 -> encode_cp b0 = Some [b0].
Proof. intros. unfold encode_cp. zcases. Qed.

Lemma encode_seq_2 (b0 b1 : Z) :
  0xC2 <= b0 <= 0xDF -> 0x80 <= b1 <= 0xBF ->
  encode_cp ((b0 - 0xC0) * 64 + (b1 - 0x80)) = Some [b0; b1].
Proof.
  intros. unfold encode_cp. zcases.
  repeat f_equal; Z.div_mod_to_equations; lia.
Qed.

Lemma encode_seq_3 (b0 b1 b2 : Z) :
  0xE0 <= b0 <= 0xEF ->
  (if b0 =? 0xE0 then 0xA0 else 0x80) <= b1
    <= (if b0 =? 0xED then 0x9F else 0xBF) ->
  0x80 <= b2 <= 0xBF ->
  encode_cp (((b0 - 0xE0) * 64 + (b1 - 0x80)) * 64 + (b2 - 0x80))
  = Some [b0; b1; b2].
Proof.
  intros H0 H1 H2. unfold encode_cp.
  destruct (Z.eqb_spec b0 0xE0), (Z.eqb_spec b0 0xED); try lia;
    zcases; repeat f_equal; Z.div_mod_to_equations; lia.
Qed.

Lemma encode_seq_4 (b0 b1 b2 b3 : Z) :
  0xF0 <= b0 <= 0xF4 ->
  (if b0 =? 0xF0 then 0x90 else 0x80) <= b1
    <= (if b0 =? 0xF4 then 0x8F else 0xBF) ->
  0x80 <= b2 <= 0xBF -> 0x80 <= b3 <= 0xBF ->
  encode_cp ((((b0 - 0xF0) * 64 + (b1 - 0x80)) * 64 + (b2 - 0x80)) * 64
             + (b3 - 0x80))
  = Some [b0; b1; b2; b3].
Proof.
  intros H0 H1 H2 H3. unfold encode_cp.
  destruct (Z.eqb_spec b0 0xF0), (Z.eqb_spec b0 0xF4); try lia;
    zcases; repeat f_equal; Z.div_mod_to_equations; lia.
Qed.

Lemma decode_wf_below (n : nat) (bs : bytes) :
  (length bs < n)%nat -> wf bs = true ->
  exists s, decode_chunk utf_8 Idle bs = (Idle, s) /\ encode s = Some bs.
Proof.
  revert bs. induction n as [|n IH]; intros bs Hn Hwf; [lia|].
  destruct bs as [|b0 r0]; [now exists []|].
  simpl in Hwf, Hn.
  destruct ((0 <=? b0) && (b0 <? 128)) eqn:E1.
  { zhyp. destruct (IH r0) as (s & Hd & He); [lia|assumption|].
    exists (b0 :: s). rewrite decode_seq_1, Hd by lia. split; [reflexivity|].
    simpl. now rewrite encode_seq_1, He by lia. }
  destruct ((194 <=? b0) && (b0 <=? 223)) eqn:E2.
  { destruct r0 as [|b1 r1]; [discriminate|]. unfold cont in Hwf.
    simpl in Hn. zhyp.
    destruct (IH r1) as (s & Hd & He); [lia|assumption|].
    eexists. rewrite decode_seq_2, Hd by lia. split; [reflexivity|].
    simpl. now rewrite encode_seq_2, He by lia. }
  destruct ((224 <=? b0) && (b0 <=? 239)) eqn:E3.
  { destruct r0 as [|b1 [|b2 r2]]; try discriminate. unfold cont in Hwf.
    simpl in Hn. zhyp.
    assert ((if b0 =? 224 then 160 else 128) <= b1
            <= (if b0 =? 237 then 159 else 191))
      by (destruct (Z.eqb_spec b0 224), (Z.eqb_spec b0 237); zhyp; lia).
    destruct (IH r2) as (s & Hd & He); [lia|assumption|].
    eexists. rewrite decode_seq_3, Hd by lia. split; [reflexivity|].
    simpl. now rewrite encode_seq_3, He by lia. }
  destruct ((240 <=? b0) && (b0 <=? 244)) eqn:E4; [|discriminate].
  destruct r0 as [|b1 [|b2 [|b3 r3]]]; try discriminate. unfold cont in Hwf.
  simpl in Hn. zhyp.
  assert ((if b0 =? 240 then 144 else 128) <= b1
          <= (if b0 =? 244 then 143 else 191))
    by (destruct (Z.eqb_spec b0 240), (Z.eqb_spec b0 244); zhyp; lia).
  destruct (IH r3) as (s & Hd & He); [lia|assumption|].
  eexists. rewrite decode_seq_4, Hd by lia. split; [reflexivity|].
  simpl. now rewrite encode_seq_4, He by lia.
Qed.

(** Well-formed UTF-8, decoded and encoded again, is what it was. *)
Lemma encode_decode_wf (bs : bytes) :
  wf bs = true -> encode (decode utf_8 bs) = Some bs.
Proof.
  intros Hwf. destruct (decode_wf_below (S (length bs)) bs) as (s & Hd & He);
    [lia|assumption|].
  unfold decode. change (dec_init utf_8) with Idle. rewrite Hd.
  cbn [dec_final utf_8 final]. now rewrite app_nil_r.
Qed.

End UTF8_facts.

(** ** Decoders and chunks *)

Lemma decode_chunk_app (c : codec) (st : dec_state c) (a b : bytes) :
  decode_chunk c st (a ++ b) =
  let '(st1, out1) := decode_chunk c st a in
  let '(st2, out2) := decode_chunk c st1 b in
  (st2, out1 ++ out2).
Proof.
  revert st. induction a as [|x a IH]; intros st; simpl.
  - now destruct (decode_chunk c st b).
  - destruct (dec_step c st x) as [st1 o1]. rewrite IH.
    destruct (decode_chunk c st1 a) as [st2 o2].
    destruct (decode_chunk c st2 b) as [st3 o3]. now rewrite app_assoc.
Qed.

(** What the decoding loop yields, joined, is the body decoded in one
    piece, whatever the chunks. *)
Lemma decode_stream_concat (c : codec) (st : dec_state c)
  (chunks : list bytes) :
  decode_chunk c st (concat chunks) =
  let '(outs, st') := decode_stream c st chunks in (st', concat outs).
Proof.
  revert st. induction chunks as [|ch rest IH]; intros st; simpl.
  - reflexivity.
  - rewrite decode_chunk_app. destruct (decode_chunk c st ch) as [st1 rv].
    rewrite IH. destruct (decode_stream c st1 rest) as [outs st2].
    now destruct rv.
Qed.

Lemma decode_stream_nonempty (c : codec) (st : dec_state c)
  (chunks : list bytes) :
  Forall (fun s => nonempty s = true) (fst (decode_stream c st chunks)).
Proof.
  revert st. induction chunks as [|ch rest IH]; intros st; simpl.
  - constructor.
  - destruct (decode_chunk c st ch) as [st1 rv]. specialize (IH st1).
    destruct (decode_stream c st1 rest) as [outs st2]. simpl in *.
    destruct rv; simpl; [assumption|]. now constructor.
Qed.

(** ISO-8859-1 leaves ASCII as it is. *)
Lemma decode_latin_1 (bs : bytes) : decode latin_1 bs = bs.
Proof.
  unfold decode. cbn [dec_init latin_1].
  assert (H : decode_chunk latin_1 tt bs = (tt, bs)).
  { induction bs as [|b r IH]; [reflexivity|].
    rewrite UTF8_facts.decode_chunk_cons. cbn [dec_step latin_1].
    now rewrite IH. }
  rewrite H. cbn [dec_final latin_1]. apply app_nil_r.
Qed.

Lemma encode_ascii (bs : bytes) :
  Forall (fun b => 0 <= b < 128) bs -> UTF8.encode bs = Some bs.
Proof.
  induction 1 as [|b r Hb _ IH]; [reflexivity|].
  simpl. now rewrite UTF8_facts.encode_seq_1, IH by lia.
Qed.

(** ** What the UTF-8 decoder gives can always be written *)

Lemma scalar_encode_cp (c : Z) :
  scalar c = true -> is_Some (UTF8.encode_cp c).
Proof.
  unfold scalar, UTF8.encode_cp. intros H. zhyp.
  apply negb_true_iff in H0.
  destruct (Z.ltb_spec c 0); [lia|].
  destruct (c <? 128); [now eexists|].
  destruct (c <? 2048); [now eexists|].
  destruct (c <? 65536).
  - rewrite H0. now eexists.
  - apply Z.ltb_lt in H1 as ->. now eexists.
Qed.

Lemma scalars_encode (s : str) :
  Forall (fun c => scalar c = true) s -> is_Some (UTF8.encode s).
Proof.
  induction 1 as [|c s Hc _ [bs IH]]; [now eexists|].
  destruct (scalar_encode_cp c Hc) as [b Hb].
  simpl. rewrite Hb, IH. now eexists.
Qed.

Ltac scalar_range := intros; unfold scalar; zcases.

Lemma start_ok (b : Z) :
  decoder_ok (fst (UTF8.start b))
  /\ Forall (fun c => scalar c = true) (snd (UTF8.start b)).
Proof.
  unfold UTF8.start.
  destruct ((0 <=? b) && (b <? 128)) eqn:E1.
  { zhyp. split; [exact I|]. repeat constructor. scalar_range. }
  destruct ((194 <=? b) && (b <=? 223)) eqn:E2.
  { zhyp. split; [|constructor]. cbn [fst decoder_ok pending_ok].
    scalar_range. }
  destruct (Z.eqb_spec b 224) as [->|].
  { split; [|constructor]. cbn [fst decoder_ok pending_ok]. scalar_range. }
  destruct (Z.eqb_spec b 237) as [->|].
  { split; [|constructor]. cbn [fst decoder_ok pending_ok]. scalar_range. }
  destruct ((225 <=? b) && (b <=? 239)) eqn:E3.
  { zhyp. split; [|constructor]. cbn [fst decoder_ok pending_ok].
    scalar_range. }
  destruct (Z.eqb_spec b 240) as [->|].
  { split; [|constructor]. cbn [fst decoder_ok pending_ok]. scalar_range. }
  destruct (Z.eqb_spec b 244) as [->|].
  { split; [|constructor]. cbn [fst decoder_ok pending_ok]. scalar_range. }
  destruct ((241 <=? b) && (b <=? 243)) eqn:E4.
  { zhyp. split; [|constructor]. cbn [fst decoder_ok pending_ok].
    scalar_range. }
  split; [exact I|]. repeat constructor.
Qed.

Lemma step_ok (st : UTF8.dstate) (b : Z) :
  decoder_ok st ->
  decoder_ok (fst (UTF8.step st b))
  /\ Forall (fun c => scalar c = true) (snd (UTF8.step st b)).
Proof.
  intros Hst. destruct st as [|acc need lo hi]; [apply start_ok|].
  cbn [UTF8.step decoder_ok] in *.
  destruct ((lo <=? b) && (b <=? hi)) eqn:E.
  - zhyp. destruct need as [|n]; cbn [pending_ok fst snd decoder_ok] in *.
    + split; [exact I|]. repeat constructor. apply Hst. lia.
    + split; [|constructor]. apply Hst. lia.
  - destruct (start_ok b) as [H1 H2].
    destruct (UTF8.start b) as [st' out]. cbn [fst snd] in *.
    split; [assumption|]. now constructor.
Qed.

Lemma decode_chunk_utf_8_ok (st : UTF8.dstate) (bs : bytes) :
  decoder_ok st ->
  decoder_ok (fst (decode_chunk utf_8 st bs))
  /\ Forall (fun c => scalar c = true) (snd (decode_chunk utf_8 st bs)).
Proof.
  revert st. induction bs as [|b r IH]; intros st Hst.
  - split; [assumption|constructor].
  - rewrite UTF8_facts.decode_chunk_cons. cbn [dec_step utf_8].
    destruct (step_ok st b Hst) as [H1 H2].
    destruct (UTF8.step st b) as [st1 out1]. cbn [fst snd] in *.
    destruct (IH st1 H1) as [H3 H4].
    destruct (decode_chunk utf_8 st1 r) as [st2 out2]. cbn [fst snd] in *.
    split; [assumption|]. now apply Forall_app.
Qed.

(** Whatever the bytes, what the UTF-8 decoder gives are scalar values. *)
Lemma decode_utf_8_scalars (bs : bytes) :
  Forall (fun c => scalar c = true) (decode utf_8 bs).
Proof.
  unfold decode.
  destruct (decode_chunk_utf_8_ok UTF8.Idle bs I) as [H1 H2].
  change (dec_init utf_8) with UTF8.Idle.
  destruct (decode_chunk utf_8 UTF8.Idle bs) as [st out]. cbn [fst snd] in *.
  apply Forall_app. split; [assumption|].
  destruct st; cbn [dec_final utf_8 UTF8.final]; repeat constructor.
Qed.

(** ** What can be printed *)

Lemma scalar_false_encode_cp (c : Z) :
  scalar c = false -> UTF8.encode_cp c = None.
Proof. unfold scalar, UTF8.encode_cp. zcases; discriminate. Qed.

Lemma encode_printable (s : str) :
  printable s = true -> is_Some (UTF8.encode s).
Proof.
  intros H. apply scalars_encode. induction s as [|c s IH]; [constructor|].
  simpl in H. apply andb_true_iff in H as [Hc Hs]. constructor; auto.
Qed.

Lemma encode_unprintable (s : str) :
  printable s = false -> UTF8.encode s = None.
Proof.
  induction s as [|c s IH]; [discriminate|]. simpl. intros H.
  apply andb_false_iff in H as [Hc|Hs].
  - now rewrite (scalar_false_encode_cp c Hc).
  - rewrite (IH Hs). now destruct (UTF8.encode_cp c).
Qed.

Lemma printable_app (a b : str) :
  printable (a ++ b) = printable a && printable b.
Proof. apply forallb_app. Qed.

Lemma printable_scalars (s : str) :
  Forall (fun c => scalar c = true) s -> printable s = true.
Proof. induction 1 as [|c s Hc _ IH]; [reflexivity|]. simpl. now rewrite Hc. Qed.

(** Text given in UTF-8 holds no lone surrogate. *)
Lemma printable_py (s : String.string) : printable (py s) = true.
Proof. apply printable_scalars, decode_utf_8_scalars. Qed.

Lemma printable_ascii (s : str) :
  Forall (fun b => 0 <= b < 128) s -> printable s = true.
Proof.
  induction 1 as [|c s Hc _ IH]; [reflexivity|]. simpl. rewrite IH.
  unfold scalar. zcases.
Qed.

Lemma string_of_uint_digits (d : Decimal.uint) :
  Forall (fun b => 48 <= b <= 57)
    (bytes_of_string (DecimalString.NilEmpty.string_of_uint d)).
Proof.
  induction d; cbn [DecimalString.NilEmpty.string_of_uint bytes_of_string];
    constructor; try assumption; vm_compute; split; discriminate.
Qed.

Lemma str_of_int_ascii (n : Z) :
  Forall (fun b => 0 <= b < 128) (str_of_int n).
Proof.
  unfold str_of_int, string_of_int, DecimalString.NilZero.string_of_int.
  assert (H : forall d,
            Forall (fun b => 0 <= b < 128)
              (bytes_of_string (DecimalString.NilZero.string_of_uint d))).
  { intros d. unfold DecimalString.NilZero.string_of_uint.
    assert (Hd := string_of_uint_digits d).
    destruct d; try (eapply Forall_impl; [exact Hd|simpl; intros; lia]).
    repeat constructor; vm_compute; discriminate. }
  destruct (Z.to_int n) as [d|d]; [apply H|].
  cbn [bytes_of_string]. constructor; [|apply H].
  vm_compute. split; [discriminate|reflexivity].
Qed.

Lemma printable_str_of_int (n : Z) : printable (str_of_int n) = true.
Proof. apply printable_ascii, str_of_int_ascii. Qed.

Lemma printable_format_2f (x : float) : printable (format_2f x) = true.
Proof.
  unfold format_2f. rewrite !printable_app, printable_str_of_int, printable_py.
  apply printable_ascii. unfold two_digits.
  set (q := round_half_even _ _ mod 100).
  assert (0 <= q < 100) by (apply Z.mod_pos_bound; lia).
  repeat constructor; Z.div_mod_to_equations; lia.
Qed.

(** [print] by cases. *)
Lemma print_run (line : str) (w : World) :
  print line w =
  if printable line then (Return tt, put_lines w [line])
  else (Raise (unicode_encode_error line), w).
Proof.
  unfold print. destruct (printable line) eqn:H.
  - now destruct (encode_printable line H) as [b ->].
  - now rewrite (encode_unprintable line H).
Qed.

(** ** Numbers as text, read back *)

Lemma decimal_value_from_acc (d : Decimal.uint) (acc : positive) :
  decimal_value_from (Z.pos acc)
    (bytes_of_string (DecimalString.NilEmpty.string_of_uint d))
  = Some (Z.pos (Pos.of_uint_acc d acc)).
Proof.
  revert acc.
  induction d; intros acc;
    cbn [DecimalString.NilEmpty.string_of_uint bytes_of_string
         Pos.of_uint_acc];
    [reflexivity|..];
    match goal with
    | |- decimal_value_from _ (?c :: _) = _ =>
        let c' := eval vm_compute in c in change c with c'
    end;
    cbn [decimal_value_from]; cbv beta iota;
    change ((48 <=? _) && (_ <=? 57)) with true; cbv iota;
    rewrite <- IHd; f_equal; lia.
Qed.

Lemma decimal_value_from_uint (d : Decimal.uint) :
  decimal_value_from 0
    (bytes_of_string (DecimalString.NilEmpty.string_of_uint d))
  = Some (Z.of_N (Pos.of_uint d)).
Proof.
  induction d;
    cbn [DecimalString.NilEmpty.string_of_uint bytes_of_string Pos.of_uint];
    [reflexivity|..];
    match goal with
    | |- decimal_value_from _ (?c :: _) = _ =>
        let c' := eval vm_compute in c in change c with c'
    end;
    cbn [decimal_value_from]; cbv beta iota;
    change ((48 <=? _) && (_ <=? 57)) with true; cbv iota;
    [exact IHd|..]; apply decimal_value_from_acc.
Qed.

(** What [str] gives for a natural number reads back as that number. *)
Lemma decimal_value_str_of_int (n : Z) :
  0 <= n -> decimal_value (str_of_int n) = Some n.
Proof.
  intros Hn. unfold str_of_int, string_of_int. destruct n as [|p|p]; [|
    |lia].
  - reflexivity.
  - cbn [Z.to_int DecimalString.NilZero.string_of_int].
    unfold DecimalString.NilZero.string_of_uint.
    pose proof (DecimalPos.Unsigned.to_uint_nonnil p) as Hnil.
    pose proof (DecimalPos.Unsigned.of_to p) as Hof.
    pose proof (decimal_value_from_uint (Pos.to_uint p)) as Hv.
    rewrite Hof in Hv.
    destruct (Pos.to_uint p) eqn:E; [contradiction| ..];
      unfold decimal_value;
      cbn [DecimalString.NilEmpty.string_of_uint bytes_of_string] in *;
      exact Hv.
Qed.

Lemma decimal_value_two_digits (r : Z) :
  0 <= r < 100 ->
  decimal_value (two_digits r) = Some r /\ length (two_digits r) = 2%nat.
Proof.
  intros Hr. split; [|reflexivity].
  unfold two_digits, decimal_value. cbn [decimal_value_from].
  assert (0 <= r / 10 <= 9 /\ 0 <= r mod 10 <= 9)
    by (Z.div_mod_to_equations; lia).
  replace ((48 <=? 48 + r / 10) && (48 + r / 10 <=? 57)) with true
    by (symmetry; apply andb_true_iff; split; apply Z.leb_le; lia).
  replace ((48 <=? 48 + r mod 10) && (48 + r mod 10 <=? 57)) with true
    by (symmetry; apply andb_true_iff; split; apply Z.leb_le; lia).
  f_equal. Z.div_mod_to_equations; lia.
Qed.

(** ** The shape of a run *)

Lemma put_lines_app (w : World) (a b : list str) :
  put_lines (put_lines w a) b = put_lines w (a ++ b).
Proof. unfold put_lines; simpl. now rewrite app_assoc. Qed.

Lemma nonempty_app {A} (a b : list A) :
  nonempty (a ++ b) = nonempty a || nonempty b.
Proof. now destruct a, b. Qed.

(** [raise_for_status] raises for the statuses from 400 to 599 and for no
    other. *)
Lemma http_error_msg_nonempty (r : Response) :
  nonempty_string (http_error_msg r) = is_error_status (status_code r).
Proof.
  unfold http_error_msg, is_error_status.
  destruct (Z.leb_spec 400 (status_code r)), (Z.ltb_spec (status_code r) 500),
    (Z.leb_spec 500 (status_code r)), (Z.ltb_spec (status_code r) 600);
    simpl; try lia; try reflexivity;
    now destruct (string_of_int (status_code r)).
Qed.

(** A line that can be printed is added to the output. *)
Lemma print_ok (line : str) (w : World) :
  printable line = true -> print line w = (Return tt, put_lines w [line]).
Proof. intros H. now rewrite print_run, H. Qed.

Lemma printable_lit_app (s : String.string) (t : str) :
  printable (py s ++ t) = printable t.
Proof. now rewrite printable_app, printable_py. Qed.

Lemma printable_failure_line (e : exn) : printable (failure_line e) = true.
Proof.
  unfold failure_line. rewrite printable_app, printable_py.
  now destruct (is_RequestException _); rewrite printable_py.
Qed.

(** ** The handlers *)

Lemma on_exception_run (e : exn) (w : World) :
  on_exception e w =
  (Return false, put_lines w [py "✗ Unexpected error: " ++ py (exn_msg e)]).
Proof.
  unfold on_exception. cbv [mbind M_bind mret M_ret].
  rewrite print_ok; [reflexivity|].
  now rewrite printable_lit_app, printable_py.
Qed.

Lemma on_request_exception_run (e : exn) (w : World) :
  on_request_exception e w =
  let line := py "✗ Error downloading CSV: " ++ py (exn_msg e) in
  match exn_response e with
  | None => (Return false, put_lines w [line])
  | Some r =>
      let status := py "  Status code: " ++ str_of_int (status_code r) in
      match text r with
      | Return t =>
          if printable (take 200 t) then
            (Return false,
             put_lines w [line; status; py "  Response: " ++ take 200 t])
          else
            (Raise (unicode_encode_error (py "  Response: " ++ take 200 t)),
             put_lines w [line; status])
      | Raise e' => (Raise e', put_lines w [line; status])
      end
  end.
Proof.
  unfold on_request_exception, lift. cbv [mbind M_bind mret M_ret].
  rewrite print_ok by now rewrite printable_lit_app, printable_py.
  cbv beta iota zeta.
  destruct (exn_response e) as [r|]; [|reflexivity].
  rewrite print_ok by now rewrite printable_lit_app, printable_str_of_int.
  cbv beta iota. rewrite put_lines_app. cbn [app].
  destruct (text r) as [t|e']; [|reflexivity].
  rewrite print_run, printable_lit_app.
  destruct (printable (take 200 t)); [|reflexivity].
  now rewrite put_lines_app.
Qed.

Lemma dispatch_handlers (e : exn) (w : World) :
  dispatch handlers e w =
  if is_RequestException (exn_cls e) then on_request_exception e w
  else on_exception e w.
Proof. unfold handlers; simpl. now destruct (is_RequestException _). Qed.

(** A handler changes no file, and when it returns, returns [False]. *)
Lemma dispatch_handlers_fs (e : exn) (w : World) :
  fs (snd (dispatch handlers e w)) = fs w.
Proof.
  rewrite dispatch_handlers, on_request_exception_run, on_exception_run.
  cbv zeta.
  destruct (is_RequestException _); [|reflexivity].
  destruct (exn_response e) as [r|]; [|reflexivity].
  destruct (text r) as [t|]; [|reflexivity].
  now destruct (printable (take 200 t)).
Qed.

Lemma dispatch_handlers_not_True (e : exn) (w : World) :
  fst (dispatch handlers e w) <> Return true.
Proof.
  rewrite dispatch_handlers, on_request_exception_run, on_exception_run.
  cbv zeta.
  destruct (is_RequestException _); [|discriminate].
  destruct (exn_response e) as [r|]; [|discriminate].
  destruct (text r) as [t|]; [|discriminate].
  now destruct (printable (take 200 t)).
Qed.

(** With no response attached to the exception, the handler prints one
    line and returns. *)
Lemma dispatch_no_response_run (e : exn) (w : World) :
  exn_response e = None ->
  dispatch handlers e w = (Return false, put_lines w [failure_line e]).
Proof.
  intros He. rewrite dispatch_handlers, on_request_exception_run,
    on_exception_run, He.
  unfold failure_line. now destruct (is_RequestException _).
Qed.

Lemma dispatch_handlers_no_response (e : exn) (w : World) :
  exn_response e = None -> fst (dispatch handlers e w) = Return false.
Proof. intros He. now rewrite dispatch_no_response_run. Qed.

(** [download_csv] by cases: the request, the status, the file, the path
    in the summary. *)
Lemma download_csv_cases (env : Env) (w : World) :
  download_csv env w =
  let w1 := put_lines w [py "Downloading latest CSV from API..."] in
  match http_get env the_request with
  | Raise e => dispatch handlers e w1
  | Return r =>
      if is_error_status (status_code r) then
        dispatch handlers
          {| exn_cls := HTTPError; exn_msg := http_error_msg r;
             exn_response := Some r |} w1
      else
        match save_response env r (csv_path env) w1 with
        | (Raise e, w2) => dispatch handlers e w2
        | (Return total_size, w2) =>
            if printable (csv_path env) then
              (Return true,
               put_lines w2 (success_lines (csv_path env) total_size))
            else
              dispatch handlers
                (unicode_encode_error (py "  File: " ++ csv_path env))
                (put_lines w2 [py "✓ CSV downloaded successfully!"])
        end
  end.
Proof.
  unfold download_csv, try_except, requests_get, lift, raise_for_status, raise.
  fold handlers. fold the_request.
  cbv [mbind M_bind mret M_ret].
  rewrite print_ok by reflexivity. cbv beta iota.
  change (BASE_URL ++ py "/pets.csv") with (req_url the_request).
  destruct (http_get env the_request) as [r|e]; [|reflexivity].
  rewrite http_error_msg_nonempty.
  destruct (is_error_status (status_code r)); [reflexivity|].
  cbv zeta.
  destruct (save_response env r (csv_path env) _) as [[total|e] w2];
    [|reflexivity].
  rewrite print_ok by reflexivity. cbv beta iota.
  rewrite print_run, printable_lit_app.
  destruct (printable (csv_path env)); [|reflexivity].
  rewrite print_ok
    by now rewrite printable_lit_app, printable_app, printable_format_2f,
         printable_py.
  unfold success_lines. now rewrite !put_lines_app.
Qed.

(** ** Writing the file *)

Lemma write_chunk_frame (f : str) (total : Z) (c : chunk) (w : World) :
  stdout (snd (write_chunk f total c w)) = stdout w
  /\ (forall p, p <> f ->
        fs (snd (write_chunk f total c w)) !! p = fs w !! p)
  /\ (forall e, fst (write_chunk f total c w) = Raise e ->
        exn_response e = None).
Proof.
  unfold write_chunk. destruct (truthy c); [|now repeat split].
  destruct c as [b|s]; cbv [mbind M_bind mret M_ret write encoded_len raise].
  - repeat split; simpl. now intros e [= <-].
  - destruct (UTF8.encode s) as [b|]; simpl.
    + repeat split; [|discriminate]. intros p Hp.
      now rewrite lookup_insert_ne.
    + repeat split. now intros e [= <-].
Qed.

Lemma for_items_frame (items : list chunk) (f : str) (total : Z) (w : World) :
  stdout (snd (for_items items (write_chunk f) total w)) = stdout w
  /\ (forall p, p <> f ->
        fs (snd (for_items items (write_chunk f) total w)) !! p = fs w !! p)
  /\ (forall e, fst (for_items items (write_chunk f) total w) = Raise e ->
        exn_response e = None).
Proof.
  revert total w. induction items as [|c rest IH]; intros total w.
  - simpl. repeat split; discriminate.
  - cbn [for_items]. cbv [mbind M_bind].
    destruct (write_chunk_frame f total c w) as (Hs & Hf & He).
    destruct (write_chunk f total c w) as [[t|e] w1]; simpl in *.
    + destruct (IH t w1) as (Hs' & Hf' & He'). repeat split.
      * congruence.
      * intros p Hp. rewrite Hf' by assumption. now apply Hf.
      * assumption.
    + repeat split; assumption.
Qed.

Lemma write_chunk_text (f : str) (total : Z) (s : str) (w : World) :
  nonempty s = true ->
  write_chunk f total (Text s) w =
  match UTF8.encode s with
  | Some b =>
      (Return (total + Z.of_nat (length b)),
       put_file w f (default [] (fs w !! f) ++ b))
  | None => (Raise (unicode_encode_error s), w)
  end.
Proof.
  intros Hs. unfold write_chunk. cbn [truthy]. rewrite Hs.
  cbv [mbind M_bind mret M_ret write encoded_len raise].
  now destruct (UTF8.encode s).
Qed.

(** The loop over decoded text: the pieces are appended to the file one by
    one, and the count is the number of bytes appended. *)
Lemma for_items_text (outs : list str) (f : str) (total : Z) (w : World)
  (x : bytes) :
  Forall (fun s => nonempty s = true) outs ->
  fs w !! f = Some x ->
  match UTF8.encode (concat outs) with
  | Some b =>
      for_items (map Text outs) (write_chunk f) total w =
      (Return (total + Z.of_nat (length b)), put_file w f (x ++ b))
  | None =>
      exists e w', for_items (map Text outs) (write_chunk f) total w
                   = (Raise e, w')
  end.
Proof.
  intros Hne. revert total w x.
  induction Hne as [|s outs Hs _ IH]; intros total w x Hx.
  - simpl. unfold put_file. rewrite app_nil_r, insert_id by assumption.
    rewrite Z.add_0_r. now destruct w.
  - cbn [map concat for_items]. rewrite UTF8_facts.encode_app.
    cbv [mbind M_bind]. rewrite write_chunk_text by assumption.
    destruct (UTF8.encode s) as [b1|]; [|now eexists _, _].
    rewrite Hx. cbn [from_option id]. cbv beta iota.
    specialize (IH (total + Z.of_nat (length b1)) (put_file w f (x ++ b1))
                  (x ++ b1)).
    unfold put_file at 1 in IH. cbn [fs] in IH.
    rewrite lookup_insert_eq in IH. specialize (IH eq_refl).
    destruct (UTF8.encode (concat outs)) as [b2|]; [|assumption].
    rewrite IH. unfold put_file. cbn [fs stdout].
    rewrite insert_insert_eq, length_app, <- app_assoc.
    do 2 f_equal. lia.
Qed.

(** The loop over undecoded bytes: the first chunk that is not empty stops
    it, before anything is written. *)
Lemma for_items_bytes (chunks : list bytes) (f : str) (total : Z)
  (w : World) :
  if nonempty (concat chunks) then
    exists e, for_items (map Bytes chunks) (write_chunk f) total w
              = (Raise e, w)
  else for_items (map Bytes chunks) (write_chunk f) total w = (Return total, w).
Proof.
  induction chunks as [|ch rest IH]; [reflexivity|].
  cbn [map concat for_items]. rewrite nonempty_app.
  cbv [mbind M_bind]. unfold write_chunk at 1 3. cbn [truthy].
  destruct ch as [|b ch]; cbn [nonempty orb].
  - cbv [mret M_ret]. exact IH.
  - cbv [mbind M_bind write raise]. now eexists.
Qed.

Lemma for_items_bytes_raise (chunks : list bytes) (f : str) (total : Z)
  (w : World) :
  nonempty (concat chunks) = true ->
  for_items (map Bytes chunks) (write_chunk f) total w
  = (Raise write_bytes_error, w).
Proof.
  induction chunks as [|ch rest IH]; [discriminate|].
  cbn [map concat for_items]. rewrite nonempty_app.
  cbv [mbind M_bind]. unfold write_chunk at 1. cbn [truthy].
  destruct ch as [|b ch]; cbn [nonempty orb].
  - cbv [mret M_ret]. exact IH.
  - intros _. reflexivity.
Qed.

(** ** What the response's iterator yields *)

Lemma iter_content_registered (r : Response) (c : codec) (n : Z) :
  encoding r = Some (Registered c) ->
  exists outs,
    iter_content r n true = (map Text outs, exn_of_fault <$> raw_error r)
    /\ Forall (fun s => nonempty s = true) outs
    /\ (raw_error r = None -> concat outs = decode c (body r)).
Proof.
  intros He. unfold iter_content, stream_decode_response_unicode.
  rewrite He. cbn [fst snd].
  pose proof (decode_stream_concat c (dec_init c) (raw r)) as Hc.
  pose proof (decode_stream_nonempty c (dec_init c) (raw r)) as Hn.
  destruct (decode_stream c (dec_init c) (raw r)) as [outs st]. cbn [fst] in Hn.
  destruct (raw_error r) as [f|]; cbn [fmap option_fmap option_map].
  - exists outs. repeat split; [assumption|discriminate].
  - exists (outs ++ if nonempty (dec_final c st) then [dec_final c st] else []).
    repeat split.
    + apply Forall_app. split; [assumption|].
      destruct (nonempty (dec_final c st)) eqn:E; now repeat constructor.
    + intros _. unfold decode, body. rewrite Hc, concat_app. f_equal.
      destruct (dec_final c st); simpl; [reflexivity|]. now rewrite app_nil_r.
Qed.

Lemma iter_content_registered_cut (r : Response) (c : codec) (n : Z)
  (f : fault) :
  encoding r = Some (Registered c) -> raw_error r = Some f ->
  exists outs,
    iter_content r n true = (map Text outs, Some (exn_of_fault f))
    /\ Forall (fun s => nonempty s = true) outs
    /\ concat outs = decoded_so_far c (body r).
Proof.
  intros He Hr. unfold iter_content, stream_decode_response_unicode.
  rewrite He, Hr. cbn [fst snd fmap option_fmap option_map].
  pose proof (decode_stream_concat c (dec_init c) (raw r)) as Hc.
  pose proof (decode_stream_nonempty c (dec_init c) (raw r)) as Hn.
  unfold decoded_so_far, body.
  destruct (decode_stream c (dec_init c) (raw r)) as [outs st]. cbn [fst] in Hn.
  exists outs. repeat split; [assumption|]. now rewrite Hc.
Qed.

Lemma decode_stream_with_nonempty (d : decoder) (st : d_state d)
  (chunks : list bytes) :
  Forall (fun s => nonempty s = true) (fst (decode_stream_with d st chunks)).
Proof.
  revert st. induction chunks as [|ch rest IH]; intros st; simpl.
  - constructor.
  - destruct (d_decode d st ch false) as [[st1 rv]|m]; [|constructor].
    specialize (IH st1).
    destruct (decode_stream_with d st1 rest) as [outs end_]. simpl in *.
    destruct rv; simpl; [assumption|]. now constructor.
Qed.

(** A decoder that works chunk by chunk: the pieces yielded are what it
    gave, when it did not raise and the transfer completed. *)
Lemma iter_content_chunkwise (r : Response) (d : decoder) (n : Z) :
  encoding r = Some (Chunkwise d) ->
  exists outs,
    Forall (fun s => nonempty s = true) outs
    /\ match raw_error r, decoded_chunkwise d (raw r) with
       | None, Some s =>
           iter_content r n true = (map Text outs, None) /\ concat outs = s
       | _, _ =>
           exists e, iter_content r n true = (map Text outs, Some e)
                     /\ exn_response e = None
       end.
Proof.
  intros He. unfold iter_content, stream_decode_response_unicode,
    decoded_chunkwise.
  rewrite He. cbn [fst snd].
  pose proof (decode_stream_with_nonempty d (d_init d) (raw r)) as Hn.
  destruct (decode_stream_with d (d_init d) (raw r)) as [outs [st|m]].
  2:{ exists outs. split; [assumption|].
      destruct (raw_error r); now eexists. }
  cbn [fst] in Hn.
  destruct (raw_error r) as [f|]; cbn [fmap option_fmap option_map].
  { exists outs. split; [assumption|].
    destruct (d_decode d st [] true) as [[? ?]|?]; now eexists. }
  destruct (d_decode d st [] true) as [[st' rv]|m].
  - exists (outs ++ if nonempty rv then [rv] else []). split.
    + apply Forall_app. split; [assumption|].
      destruct (nonempty rv) eqn:E; now repeat constructor.
    + split; [reflexivity|]. rewrite concat_app. f_equal.
      destruct rv; simpl; [reflexivity|]. now rewrite app_nil_r.
  - exists outs. split; [assumption|]. now eexists.
Qed.

Lemma iter_content_ending (r : Response) (n : Z) (e : exn) :
  snd (iter_content r n true) = Some e -> exn_response e = None.
Proof.
  destruct (encoding r) as [[c|d|name]|] eqn:He.
  - destruct (iter_content_registered r c n He) as (outs & -> & _).
    cbn [snd]. destruct (raw_error r); simpl; [|discriminate].
    now intros [= <-].
  - destruct (iter_content_chunkwise r d n He) as (outs & _ & H).
    destruct (raw_error r), (decoded_chunkwise d (raw r));
      try (destruct H as (e' & -> & H); cbn [snd]; now intros [= <-]).
    destruct H as [-> _]. discriminate.
  - unfold iter_content, stream_decode_response_unicode. rewrite He.
    simpl. now intros [= <-].
  - unfold iter_content, stream_decode_response_unicode. rewrite He.
    cbn [fst snd]. destruct (raw_error r) as [f|]; simpl; [|discriminate].
    now intros [= <-].
Qed.

(** ** [save_response] *)

Lemma save_response_run (env : Env) (r : Response) (path : str) (w : World) :
  save_response env r path w =
  match open_error env path with
  | Some f => (Raise (exn_of_fault f), w)
  | None =>
      let g := iter_content r 8192 true in
      match for_items (fst g) (write_chunk path) 0 (put_file w path []) with
      | (Return total_size, w') =>
          match snd g with
          | Some e => (Raise e, w')
          | None => (Return total_size, w')
          end
      | (Raise e, w') => (Raise e, w')
      end
  end.
Proof.
  unfold save_response, open_w, for_in. cbv [mbind M_bind mret M_ret raise].
  destruct (open_error env path); [reflexivity|]. unfold put_file. cbv zeta.
  destruct (for_items _ _ _ _) as [[t|e] w']; [|reflexivity].
  now destruct (snd _).
Qed.

(** Only the file at [path] is touched, nothing is printed, and an
    exception that comes out carries no response. *)
Lemma save_response_frame (env : Env) (r : Response) (path : str)
  (w : World) :
  stdout (snd (save_response env r path w)) = stdout w
  /\ (forall p, p <> path ->
        fs (snd (save_response env r path w)) !! p = fs w !! p)
  /\ (forall e, fst (save_response env r path w) = Raise e ->
        exn_response e = None).
Proof.
  rewrite save_response_run.
  destruct (open_error env path) as [f|].
  { repeat split. now intros e [= <-]. }
  cbv zeta.
  destruct (for_items_frame (fst (iter_content r 8192 true)) path 0
              (put_file w path [])) as (Hs & Hf & He).
  pose proof (iter_content_ending r 8192) as Hend.
  assert (Hput : forall p, p <> path ->
            fs (put_file w path []) !! p = fs w !! p).
  { intros p Hp. unfold put_file; simpl. now rewrite lookup_insert_ne. }
  destruct (for_items _ _ _ _) as [[t|e] w']; cbn [fst snd] in *.
  - destruct (snd (iter_content r 8192 true)) as [e|]; cbn [fst snd].
    + repeat split; [exact Hs| |].
      * intros p Hp. now rewrite Hf, Hput.
      * intros e' [= <-]. now apply Hend.
    + repeat split; [exact Hs| |discriminate].
      intros p Hp. now rewrite Hf, Hput.
  - repeat split; [exact Hs| |exact He].
    intros p Hp. now rewrite Hf, Hput.
Qed.

(** When the file can be opened, the transfer completes and the decoded
    body can be encoded, the file holds the body encoded again and the
    count is its length. *)
Lemma save_response_ok (env : Env) (r : Response) (path : str) (w : World)
  (b : bytes) :
  open_error env path = None -> raw_error r = None ->
  reencoded r = Some b ->
  save_response env r path w = (Return (Z.of_nat (length b)), put_file w path b).
Proof.
  intros Ho Hr Hb. rewrite save_response_run, Ho. cbv zeta.
  unfold reencoded in Hb.
  assert (Hx : fs (put_file w path []) !! path = Some []).
  { unfold put_file; simpl. apply lookup_insert_eq. }
  assert (Hpp : forall y, put_file (put_file w path []) path y
                          = put_file w path y).
  { intros y. unfold put_file; simpl. now rewrite insert_insert_eq. }
  destruct (encoding r) as [[c|d|name]|] eqn:He; [| | discriminate |].
  - destruct (iter_content_registered r c 8192 He) as (outs & Hg & Hne & Hc).
    rewrite Hg, Hr. cbn [fst snd fmap option_fmap option_map].
    pose proof (for_items_text outs path 0 _ [] Hne Hx) as Hf.
    rewrite (Hc Hr), Hb in Hf. rewrite Hf. cbn [app]. now rewrite Hpp.
  - destruct (iter_content_chunkwise r d 8192 He) as (outs & Hne & Hg).
    rewrite Hr in Hg.
    destruct (decoded_chunkwise d (raw r)) as [s|]; [|discriminate].
    destruct Hg as [Hg Hc]. rewrite Hg. cbn [fst snd].
    pose proof (for_items_text outs path 0 _ [] Hne Hx) as Hf.
    rewrite Hc, Hb in Hf. rewrite Hf. cbn [app]. now rewrite Hpp.
  - unfold iter_content, stream_decode_response_unicode. rewrite He, Hr.
    cbn [fst snd fmap option_fmap option_map].
    pose proof (for_items_bytes (raw r) path 0 (put_file w path [])) as Hf.
    fold (body r) in Hf. destruct (nonempty (body r)); [discriminate|].
    injection Hb as <-. now rewrite Hf.
Qed.

(** And in no other case does it return. *)
Lemma save_response_inv (env : Env) (r : Response) (path : str)
  (w w' : World) (n : Z) :
  save_response env r path w = (Return n, w') ->
  open_error env path = None /\ raw_error r = None
  /\ exists b, reencoded r = Some b /\ n = Z.of_nat (length b)
               /\ w' = put_file w path b.
Proof.
  intros H.
  destruct (open_error env path) as [f|] eqn:Ho.
  { rewrite save_response_run, Ho in H. discriminate. }
  destruct (raw_error r) as [f|] eqn:Hr.
  { rewrite save_response_run, Ho in H. cbv zeta in H.
    assert (Hs : snd (iter_content r 8192 true) <> None).
    { destruct (encoding r) as [[c|d|name]|] eqn:He.
      - destruct (iter_content_registered r c 8192 He) as (outs & -> & _).
        now rewrite Hr.
      - destruct (iter_content_chunkwise r d 8192 He) as (outs & _ & H').
        rewrite Hr in H'. now destruct H' as (e & -> & _).
      - unfold iter_content, stream_decode_response_unicode. now rewrite He.
      - unfold iter_content, stream_decode_response_unicode.
        now rewrite He, Hr. }
    destruct (for_items _ _ _ _) as [[t|e] w1]; [|discriminate].
    destruct (snd (iter_content r 8192 true)); [discriminate|contradiction]. }
  destruct (reencoded r) as [b|] eqn:Hb.
  { rewrite (save_response_ok env r path w b Ho Hr Hb) in H.
    injection H as <- <-. repeat split. now exists b. }
  exfalso. rewrite save_response_run, Ho in H. cbv zeta in H.
  unfold reencoded in Hb.
  assert (Hx : fs (put_file w path []) !! path = Some []).
  { unfold put_file; simpl. apply lookup_insert_eq. }
  destruct (encoding r) as [[c|d|name]|] eqn:He.
  - destruct (iter_content_registered r c 8192 He) as (outs & Hg & Hne & Hc).
    rewrite Hg in H. cbn [fst snd] in H.
    pose proof (for_items_text outs path 0 _ [] Hne Hx) as Hf.
    rewrite (Hc Hr), Hb in Hf. destruct Hf as (e & w1 & Hf).
    rewrite Hf in H. discriminate.
  - destruct (iter_content_chunkwise r d 8192 He) as (outs & Hne & Hg).
    rewrite Hr in Hg.
    pose proof (for_items_text outs path 0 _ [] Hne Hx) as Hf.
    destruct (decoded_chunkwise d (raw r)) as [s|].
    + destruct Hg as [Hg Hc]. rewrite Hg in H. cbn [fst snd] in H.
      rewrite Hc, Hb in Hf. destruct Hf as (e & w1 & Hf).
      rewrite Hf in H. discriminate.
    + destruct Hg as (e & Hg & _). rewrite Hg in H. cbn [fst snd] in H.
      destruct (for_items _ _ _ _) as [[t|e'] w1]; discriminate.
  - unfold iter_content, stream_decode_response_unicode in H. rewrite He in H.
    cbn [fst snd for_items] in H. discriminate.
  - unfold iter_content, stream_decode_response_unicode in H.
    rewrite He, Hr in H. cbn [fst snd fmap option_fmap option_map] in H.
    pose proof (for_items_bytes (raw r) path 0 (put_file w path [])) as Hf.
    fold (body r) in Hf. destruct (nonempty (body r)); [|discriminate].
    destruct Hf as (e & Hf). rewrite Hf in H. discriminate.
Qed.

(** ** Runs of [download_csv] *)

(** When it succeeds. *)
Lemma download_csv_True (env : Env) (w : World) (r : Response) (b : bytes) :
  http_get env the_request = Return r ->
  is_error_status (status_code r) = false ->
  open_error env (csv_path env) = None ->
  raw_error r = None ->
  reencoded r = Some b ->
  printable (csv_path env) = true ->
  download_csv env w = (Return true, success_world env w b).
Proof.
  intros Hg Hs Ho Hr Hb Hp. rewrite download_csv_cases, Hg, Hs. cbv zeta.
  rewrite (save_response_ok _ _ _ _ b Ho Hr Hb), Hp.
  unfold success_world, put_lines, put_file. cbn [fs stdout].
  now rewrite <- app_assoc.
Qed.

(** When the file is saved and the run fails all the same. *)
Lemma download_csv_unprinted (env : Env) (w : World) (r : Response)
  (b : bytes) :
  http_get env the_request = Return r ->
  is_error_status (status_code r) = false ->
  open_error env (csv_path env) = None ->
  raw_error r = None ->
  reencoded r = Some b ->
  printable (csv_path env) = false ->
  download_csv env w = (Return false, saved_unprinted env w b).
Proof.
  intros Hg Hs Ho Hr Hb Hp. rewrite download_csv_cases, Hg, Hs. cbv zeta.
  rewrite (save_response_ok _ _ _ _ b Ho Hr Hb), Hp.
  rewrite dispatch_no_response_run by reflexivity.
  unfold saved_unprinted, put_lines, put_file. cbn [fs stdout].
  now rewrite <- !app_assoc.
Qed.

Lemma saved_unprinted_not_success (env : Env) (w : World) (b b' : bytes) :
  saved_unprinted env w b <> success_world env w b'.
Proof.
  unfold saved_unprinted, success_world, success_lines. intros [= _ H].
  apply app_inv_head in H. discriminate H.
Qed.

(** And only then. *)
Lemma download_csv_True_inv (env : Env) (w w' : World) :
  download_csv env w = (Return true, w') ->
  exists r b,
    http_get env the_request = Return r
    /\ is_error_status (status_code r) = false
    /\ open_error env (csv_path env) = None
    /\ raw_error r = None
    /\ reencoded r = Some b
    /\ w' = success_world env w b
    /\ printable (csv_path env) = true.
Proof.
  intros H.
  assert (Hno : forall e w1, dispatch handlers e w1 <> (Return true, w')).
  { intros e w1 Hd. apply (dispatch_handlers_not_True e w1). now rewrite Hd. }
  rewrite download_csv_cases in H. cbv zeta in H.
  destruct (http_get env the_request) as [r|e] eqn:Hg;
    [|now apply Hno in H].
  destruct (is_error_status (status_code r)) eqn:Hs; [now apply Hno in H|].
  destruct (save_response env r (csv_path env) _) as [[n|e] w2] eqn:Hsave;
    [|now apply Hno in H].
  destruct (printable (csv_path env)) eqn:Hp; [|now apply Hno in H].
  apply save_response_inv in Hsave as (Ho & Hr & b & Hb & -> & ->).
  exists r, b. repeat split; try assumption.
  injection H as <-. unfold success_world, put_lines, put_file.
  cbn [fs stdout]. now rewrite <- app_assoc.
Qed.


(** ** Bodies that pass through *)

Lemma passes_through_reencoded (r : Response) :
  passes_through r -> reencoded r = Some (body r).
Proof.
  unfold reencoded. intros [[-> Hwf]|[-> Hascii]].
  - now apply UTF8_facts.encode_decode_wf.
  - rewrite decode_latin_1. now apply encode_ascii.
Qed.

Lemma success_status (sc : Z) : 200 <= sc < 300 -> is_error_status sc = false.
Proof. intros. unfold is_error_status. zcases. Qed.

Lemma error_status (sc : Z) : 400 <= sc < 600 -> is_error_status sc = true.
Proof. intros. unfold is_error_status. zcases. Qed.

(** A run that reaches the end of the transfer with everything written
    leaves the file whether or not it can print the summary. *)
Lemma download_csv_saved (env : Env) (w : World) (r : Response) (b : bytes) :
  http_get env the_request = Return r ->
  is_error_status (status_code r) = false ->
  open_error env (csv_path env) = None ->
  raw_error r = None ->
  reencoded r = Some b ->
  fs (snd (download_csv env w)) = <[csv_path env := b]> (fs w)
  /\ fst (download_csv env w) = Return (printable (csv_path env)).
Proof.
  intros Hg Hs Ho Hr Hb. destruct (printable (csv_path env)) eqn:Hp.
  - now rewrite (download_csv_True env w r b).
  - now rewrite (download_csv_unprinted env w r b).
Qed.

(** * The claims *)

(** ** C1: the file and the body *)

(** C1, as worded, fails: a server that declares ISO-8859-1 and sends the
    four bytes of ["Jos\xe9"] gets a 200, the run succeeds, and the file
    holds five bytes, the last two being the UTF-8 form of [U+00E9]. *)
Lemma latin_1_body_not_saved_verbatim :
  let env := sample_env (Return jose_latin_1) in
  status_code jose_latin_1 = 200
  /\ length (body jose_latin_1) = 4%nat
  /\ fst (download_csv env empty_world) = Return true
  /\ fs (snd (download_csv env empty_world)) !! csv_path env
     = Some [74; 111; 115; 195; 169]
  /\ ~ saved_verbatim env empty_world.
Proof.
  cbv zeta. repeat split; try (vm_compute; reflexivity).
  intros H. specialize (H jose_latin_1 eq_refl).
  assert (Hs : 200 <= status_code jose_latin_1 < 300) by (simpl; lia).
  specialize (H Hs). vm_compute in H. discriminate H.
Qed.

(** C1 (amended).  For every response with a 2xx status whose body passes
    through (well-formed UTF-8 declared as UTF-8, or ASCII declared as
    ISO-8859-1), received in full, with the output path open to writing:
    [download_csv] completes, and afterwards the output file exists, has as
    many bytes as the body, and is the body byte for byte.  It returns
    [True] when the output path can be printed, and [False] when not. *)
Theorem body_saved_verbatim (env : Env) (w : World) (r : Response) :
  http_get env the_request = Return r ->
  200 <= status_code r < 300 ->
  raw_error r = None ->
  open_error env (csv_path env) = None ->
  passes_through r ->
  fst (download_csv env w) = Return (printable (csv_path env))
  /\ exists saved,
       fs (snd (download_csv env w)) !! csv_path env = Some saved
       /\ length saved = length (body r)
       /\ saved = body r.
Proof.
  intros Hg Hs Hr Ho Hp.
  destruct (download_csv_saved env w r (body r) Hg (success_status _ Hs) Ho Hr
              (passes_through_reencoded r Hp)) as [Hfs Hret].
  split; [exact Hret|]. exists (body r). repeat split.
  rewrite Hfs. apply lookup_insert_eq.
Qed.

Lemma body_saved_verbatim_witness :
  let env := sample_env (Return (ok_response (Some (Registered utf_8))
                                   [sample_csv])) in
  fst (download_csv env old_world) = Return (printable (csv_path env))
  /\ exists saved,
       fs (snd (download_csv env old_world)) !! csv_path env = Some saved
       /\ length saved = length sample_csv
       /\ saved = sample_csv.
Proof.
  cbv zeta.
  apply (body_saved_verbatim
           (sample_env (Return (ok_response (Some (Registered utf_8))
                                  [sample_csv])))
           old_world (ok_response (Some (Registered utf_8)) [sample_csv])).
  - reflexivity.
  - simpl; lia.
  - reflexivity.
  - reflexivity.
  - left. split; reflexivity.
Defined.

(** ** C2 and C3: statuses that are not a success *)

(** What a run does when the status is one [raise_for_status] raises
    for. *)
Lemma download_csv_error_status (env : Env) (w : World) (r : Response) :
  http_get env the_request = Return r ->
  400 <= status_code r < 600 ->
  download_csv env w =
  let reported :=
    [py "Downloading latest CSV from API...";
     py "✗ Error downloading CSV: " ++ py (http_error_msg r);
     py "  Status code: " ++ str_of_int (status_code r)] in
  match text r with
  | Return t =>
      if printable (take 200 t) then
        (Return false,
         put_lines w (reported ++ [py "  Response: " ++ take 200 t]))
      else
        (Raise (unicode_encode_error (py "  Response: " ++ take 200 t)),
         put_lines w reported)
  | Raise e => (Raise e, put_lines w reported)
  end.
Proof.
  intros Hg Hs. rewrite download_csv_cases, Hg, (error_status _ Hs).
  cbv zeta. rewrite dispatch_handlers. cbn [exn_cls is_RequestException].
  rewrite on_request_exception_run. cbn [exn_response exn_msg]. cbv zeta.
  destruct (text r) as [t|]; [|now rewrite put_lines_app].
  destruct (printable (take 200 t)); now rewrite put_lines_app.
Qed.

(** C2, as worded, fails: 304 is not a 2xx status, yet the run succeeds and
    the file of the earlier run is emptied. *)
Lemma not_modified_empties_file :
  let env := sample_env (Return not_modified) in
  status_code not_modified = 304
  /\ fs old_world !! csv_path env = Some sample_csv
  /\ fst (download_csv env old_world) = Return true
  /\ fs (snd (download_csv env old_world)) !! csv_path env = Some []
  /\ ~ non_2xx_keeps_file env old_world.
Proof.
  cbv zeta. repeat split; try (vm_compute; reflexivity).
  intros H. specialize (H not_modified eq_refl).
  assert (Hs : ~ 200 <= status_code not_modified < 300) by (simpl; lia).
  destruct (H Hs) as [H1 _]. vm_compute in H1. discriminate H1.
Qed.

(** C2 (amended).  For every run in which the server answers with a 4xx or
    5xx status, no file is changed, the output file included, because the
    status is checked before the file is opened, and the run does not
    report success; it returns [False] whenever the body of the answer can
    be read and its first 200 characters can be printed. *)
Theorem error_status_keeps_file (env : Env) (w : World) (r : Response) :
  http_get env the_request = Return r ->
  400 <= status_code r < 600 ->
  fs (snd (download_csv env w)) = fs w
  /\ fst (download_csv env w) <> Return true
  /\ (forall t, text r = Return t -> printable (take 200 t) = true ->
        fst (download_csv env w) = Return false).
Proof.
  intros Hg Hs. rewrite (download_csv_error_status env w r Hg Hs).
  cbv zeta. repeat split.
  - destruct (text r) as [t|]; [|reflexivity].
    now destruct (printable (take 200 t)).
  - destruct (text r) as [t|]; [|discriminate].
    now destruct (printable (take 200 t)).
  - intros t -> ->. reflexivity.
Qed.

Lemma error_status_keeps_file_witness :
  let env := sample_env (Return unauthorized) in
  fs (snd (download_csv env old_world)) = fs old_world
  /\ fst (download_csv env old_world) <> Return true
  /\ fst (download_csv env old_world) = Return false.
Proof.
  cbv zeta.
  destruct (error_status_keeps_file (sample_env (Return unauthorized))
              old_world unauthorized) as (H1 & H2 & H3).
  - reflexivity.
  - simpl; lia.
  - split; [exact H1|]. split; [exact H2|].
    apply (H3 (py "bad key")); reflexivity.
Defined.

(** C3, as worded, fails: 300 is not a 2xx status, yet the run succeeds,
    and neither the status nor the body is printed. *)
Lemma multiple_choices_not_reported :
  let env := sample_env (Return multiple_choices) in
  status_code multiple_choices = 300
  /\ fst (download_csv env empty_world) = Return true
  /\ ~ non_2xx_reported env empty_world.
Proof.
  cbv zeta. repeat split; try (vm_compute; reflexivity).
  intros H. specialize (H multiple_choices eq_refl).
  assert (Hs : ~ 200 <= status_code multiple_choices < 300) by (simpl; lia).
  destruct (H Hs) as [H1 _]. vm_compute in H1. discriminate H1.
Qed.

(** C3 (amended).  For every response with a 4xx or 5xx status,
    [download_csv] treats it as an error: it does not return [True], and it
    prints the error and then the status code, in decimal.  When the body
    can be read and its first 200 characters can be printed, it prints
    these, never more than 200, and returns [False]. *)
Theorem error_status_reported (env : Env) (w : World) (r : Response) :
  http_get env the_request = Return r ->
  400 <= status_code r < 600 ->
  fst (download_csv env w) <> Return true
  /\ (exists rest,
        stdout (snd (download_csv env w)) =
        stdout w
        ++ [py "Downloading latest CSV from API...";
            py "✗ Error downloading CSV: " ++ py (http_error_msg r);
            py "  Status code: " ++ str_of_int (status_code r)]
        ++ rest)
  /\ decimal_value (str_of_int (status_code r)) = Some (status_code r)
  /\ (forall t, text r = Return t -> printable (take 200 t) = true ->
        (length (take 200 t) <= 200)%nat
        /\ take 200 t `prefix_of` t
        /\ download_csv env w =
           (Return false,
            put_lines w
              [py "Downloading latest CSV from API...";
               py "✗ Error downloading CSV: " ++ py (http_error_msg r);
               py "  Status code: " ++ str_of_int (status_code r);
               py "  Response: " ++ take 200 t])).
Proof.
  intros Hg Hs. rewrite (download_csv_error_status env w r Hg Hs).
  cbv zeta. split; [|split; [|split]].
  - destruct (text r) as [t|]; [|discriminate].
    now destruct (printable (take 200 t)).
  - destruct (text r) as [t|]; [|now exists []].
    destruct (printable (take 200 t)); [|now exists []].
    now exists [py "  Response: " ++ take 200 t].
  - apply decimal_value_str_of_int. lia.
  - intros t -> ->. repeat split.
    + rewrite length_take. lia.
    + apply prefix_take.
Qed.

Lemma error_status_reported_witness :
  fst (download_csv (sample_env (Return unauthorized)) empty_world)
  <> Return true
  /\ decimal_value (str_of_int (status_code unauthorized)) = Some 401
  /\ (length (take 200 (py "bad key")) <= 200)%nat
  /\ download_csv (sample_env (Return unauthorized)) empty_world =
     (Return false,
      put_lines empty_world
        [py "Downloading latest CSV from API...";
         py "✗ Error downloading CSV: " ++ py (http_error_msg unauthorized);
         py "  Status code: " ++ str_of_int (status_code unauthorized);
         py "  Response: " ++ take 200 (py "bad key")]).
Proof.
  destruct (error_status_reported (sample_env (Return unauthorized))
              empty_world unauthorized) as (H1 & _ & H3 & H4).
  - reflexivity.
  - simpl; lia.
  - destruct (H4 (py "bad key")) as (H5 & _ & H6); [reflexivity..|].
    repeat split; assumption.
Defined.

(** What is printed for the 401 above. *)
Example unauthorized_lines :
  stdout (snd (download_csv (sample_env (Return unauthorized)) empty_world)) =
  [py "Downloading latest CSV from API...";
   py "✗ Error downloading CSV: 401 Client Error: Unauthorized for url: "
   ++ BASE_URL ++ py "/pets.csv";
   py "  Status code: 401";
   py "  Response: bad key"].
Proof. vm_compute. reflexivity. Qed.

(** ** C4: the exit code *)



(** ** C5: errors that come out of [download_csv] *)

(** C5 fails on the code: the server answers 500 and the connection breaks
    while the handler reads the body of the error for its excerpt.  The
    second error is raised inside the [except] block and comes out of
    [download_csv], which returns nothing. *)
Theorem error_body_read_escapes :
  download_csv (sample_env (Return broken_error)) empty_world =
  (Raise {| exn_cls := ChunkedEncodingError;
            exn_msg := "Connection broken";
            exn_response := None |},
   put_lines empty_world
     [py "Downloading latest CSV from API...";
      py "✗ Error downloading CSV: " ++ py (http_error_msg broken_error);
      py "  Status code: 500"]).
Proof.
  rewrite (download_csv_error_status (sample_env (Return broken_error))
             empty_world broken_error eq_refl)
    by (simpl; lia).
  reflexivity.
Qed.

(** ** C6: what the caller gets back *)

(** C6, as worded, fails: a run that writes fifteen bytes and a run that
    writes none return the same value, [True], so no reading of the value
    returned gives the number of bytes written. *)
Lemma byte_count_not_returned :
  let env15 := sample_env (Return (ok_response (Some (Registered utf_8))
                                     [sample_csv])) in
  let env0 := sample_env (Return (ok_response (Some (Registered utf_8)) [])) in
  fst (download_csv env15 empty_world) = Return true
  /\ fs (snd (download_csv env15 empty_world)) !! csv_path env15
     = Some sample_csv
  /\ length sample_csv = 15%nat
  /\ fst (download_csv env0 empty_world) = Return true
  /\ fs (snd (download_csv env0 empty_world)) !! csv_path env0 = Some []
  /\ ~ returns_byte_count.
Proof.
  cbv zeta.
  split; [vm_compute; reflexivity|].
  split; [vm_compute; reflexivity|].
  split; [reflexivity|].
  split; [vm_compute; reflexivity|].
  split; [vm_compute; reflexivity|].
  intros [count H].
  set (r15 := ok_response (Some (Registered utf_8)) [sample_csv]).
  set (r0 := ok_response (Some (Registered utf_8)) []).
  assert (R15 : download_csv (sample_env (Return r15)) empty_world
                = (Return true,
                   success_world (sample_env (Return r15)) empty_world
                     sample_csv))
    by (apply (download_csv_True (sample_env (Return r15)) empty_world r15
                 sample_csv); reflexivity).
  assert (R0 : download_csv (sample_env (Return r0)) empty_world
               = (Return true,
                  success_world (sample_env (Return r0)) empty_world []))
    by (apply (download_csv_True (sample_env (Return r0)) empty_world r0 []);
        reflexivity).
  pose proof (H _ _ _ _ sample_csv R15 (lookup_insert_eq _ _ _)) as H15.
  pose proof (H _ _ _ _ [] R0 (lookup_insert_eq _ _ _)) as H0.
  rewrite H15 in H0. discriminate H0.
Qed.

(** C6 (amended).  [download_csv] returns a success flag and no count: when
    it returns, the value is [True] exactly when the response passed the
    status check, the file could be opened, the transfer completed and the
    decoded body could be encoded, and the summary was printed; the bytes
    written are then in the file, and their number reaches the caller only
    as the size printed in the summary. *)
Theorem returns_success_flag (env : Env) (w w' : World) (v : bool) :
  download_csv env w = (Return v, w') ->
  v = true <->
  exists r b,
    http_get env the_request = Return r
    /\ is_error_status (status_code r) = false
    /\ open_error env (csv_path env) = None
    /\ raw_error r = None
    /\ reencoded r = Some b
    /\ w' = success_world env w b.
Proof.
  intros H. split.
  - intros ->. apply download_csv_True_inv in H
      as (r & b & Hg & Hs & Ho & Hr & Hb & Hw & _).
    now exists r, b.
  - intros (r & b & Hg & Hs & Ho & Hr & Hb & ->).
    destruct (printable (csv_path env)) eqn:Hp.
    + rewrite (download_csv_True env w r b Hg Hs Ho Hr Hb Hp) in H.
      congruence.
    + rewrite (download_csv_unprinted env w r b Hg Hs Ho Hr Hb Hp) in H.
      assert (Hw : saved_unprinted env w b = success_world env w b)
        by congruence.
      now apply saved_unprinted_not_success in Hw.
Qed.

Lemma returns_success_flag_witness :
  let env := sample_env (Return (ok_response (Some (Registered utf_8))
                                   [sample_csv])) in
  true = true <->
  exists r b,
    http_get env the_request = Return r
    /\ is_error_status (status_code r) = false
    /\ open_error env (csv_path env) = None
    /\ raw_error r = None
    /\ reencoded r = Some b
    /\ success_world env empty_world sample_csv = success_world env empty_world b.
Proof.
  cbv zeta.
  apply (returns_success_flag
           (sample_env (Return (ok_response (Some (Registered utf_8))
                                  [sample_csv])))
           empty_world).
  apply (download_csv_True _ empty_world
           (ok_response (Some (Registered utf_8)) [sample_csv]) sample_csv);
    reflexivity.
Defined.

(** ** C7: two runs *)

(** C7, as worded, fails: after a first run that saves the sample and a
    second whose server declares ISO-8859-1 and sends ["Jos\xe9"], the file
    holds nothing of the first body, but not the second body either: it
    holds the second body encoded again, five bytes for four. *)
Lemma second_body_not_verbatim :
  let env1 := sample_env (Return (ok_response (Some (Registered utf_8))
                                    [sample_csv])) in
  let env2 := sample_env (Return jose_latin_1) in
  fst (download_csv env1 empty_world) = Return true
  /\ fst (download_csv env2 (snd (download_csv env1 empty_world)))
     = Return true
  /\ fs (snd (download_csv env2 (snd (download_csv env1 empty_world))))
       !! csv_path env2 = Some [74; 111; 115; 195; 169]
  /\ body jose_latin_1 = [74; 111; 115; 233]
  /\ ~ second_body_verbatim env1 env2 empty_world.
Proof.
  cbv zeta.
  split; [vm_compute; reflexivity|].
  split; [vm_compute; reflexivity|].
  split; [vm_compute; reflexivity|].
  split; [reflexivity|].
  intros H. specialize (H jose_latin_1 eq_refl).
  assert (H1 : fst (download_csv
                      (sample_env (Return (ok_response
                                             (Some (Registered utf_8))
                                             [sample_csv])))
                      empty_world) = Return true)
    by (vm_compute; reflexivity).
  specialize (H H1).
  assert (H2 : fst (download_csv (sample_env (Return jose_latin_1))
                      (snd (download_csv
                              (sample_env (Return (ok_response
                                                     (Some (Registered utf_8))
                                                     [sample_csv])))
                              empty_world))) = Return true)
    by (vm_compute; reflexivity).
  specialize (H H2). vm_compute in H. discriminate H.
Qed.

(** C7 (amended).  For any two successive successful runs of the script
    where the server returns body A then body B, after the second run the
    output file holds exactly what the second run wrote, which is B decoded
    and encoded again as UTF-8 (B itself when B passes through), and
    nothing of A: it is what the second run leaves when there was no first
    run. *)
Theorem last_write_wins (env1 env2 : Env) (w : World) (rB : Response) :
  http_get env2 the_request = Return rB ->
  csv_path env1 = csv_path env2 ->
  fst (download_csv env1 w) = Return true ->
  fst (download_csv env2 (snd (download_csv env1 w))) = Return true ->
  exists b,
    reencoded rB = Some b
    /\ fs (snd (download_csv env2 (snd (download_csv env1 w))))
         !! csv_path env2 = Some b
    /\ (passes_through rB -> b = body rB)
    /\ fs (snd (download_csv env2 w)) !! csv_path env2 = Some b.
Proof.
  intros Hg _ _ H2.
  destruct (download_csv env2 (snd (download_csv env1 w))) as [o w2] eqn:Hrun.
  cbn [fst snd] in *. subst o.
  apply download_csv_True_inv in Hrun
    as (r & b & Hg' & Hs & Ho & Hr & Hb & -> & Hp).
  rewrite Hg in Hg'. injection Hg' as <-.
  exists b. repeat split.
  - assumption.
  - unfold success_world; simpl. apply lookup_insert_eq.
  - intros Hq. apply passes_through_reencoded in Hq. congruence.
  - rewrite (download_csv_True env2 w rB b Hg Hs Ho Hr Hb Hp).
    unfold success_world; simpl. apply lookup_insert_eq.
Qed.

Lemma last_write_wins_witness :
  let env1 := sample_env (Return (ok_response (Some (Registered utf_8))
                                    [sample_csv])) in
  let env2 := sample_env (Return jose_latin_1) in
  exists b,
    reencoded jose_latin_1 = Some b
    /\ fs (snd (download_csv env2 (snd (download_csv env1 empty_world))))
         !! csv_path env2 = Some b
    /\ (passes_through jose_latin_1 -> b = body jose_latin_1)
    /\ fs (snd (download_csv env2 empty_world)) !! csv_path env2 = Some b.
Proof.
  cbv zeta.
  apply (last_write_wins
           (sample_env (Return (ok_response (Some (Registered utf_8))
                                  [sample_csv])))
           (sample_env (Return jose_latin_1)) empty_world jose_latin_1).
  - reflexivity.
  - reflexivity.
  - vm_compute; reflexivity.
  - vm_compute; reflexivity.
Defined.

(** ** C8: where the file goes *)

Module posixpath_facts.
Import posixpath.









(** *** Paths by their components *)



















End posixpath_facts.






(** Components that go up are followed too. *)
Example script_file_with_dotdot :
  csv_path (chdir {| script_file := py "../PetMatch/server/download_csv.py";
                     getcwd := py "/";
                     http_get := fun _ => Return not_modified;
                     open_error := fun _ => None |}
              (py "/home/pets/tools"))
  = py "/home/pets/PetMatch/pets.csv".
Proof. vm_compute. reflexivity. Qed.

(** ** C9: the size printed *)

Lemma round_half_even_nearest (a d : Z) :
  0 < d -> - d <= 2 * (a - round_half_even a d * d) <= d.
Proof.
  intros Hd. unfold round_half_even.
  pose proof (Z.div_mod a d ltac:(lia)) as Ha.
  pose proof (Z.mod_pos_bound a d Hd) as Hr.
  set (q := a / d) in *. set (r := a mod d) in *.
  assert (Ha' : a - q * d = r) by lia.
  assert (Ha'' : a - (q + 1) * d = r - d) by lia.
  destruct (Z.ltb_spec (2 * r) d); [lia|].
  destruct (Z.ltb_spec d (2 * r)); [lia|].
  destruct (Z.even q); lia.
Qed.

(** Half way between two integers, the even one. *)
Lemma round_half_even_tie (a d : Z) :
  0 < d -> 2 * Z.abs (a - round_half_even a d * d) = d ->
  Z.even (round_half_even a d) = true.
Proof.
  intros Hd. unfold round_half_even.
  pose proof (Z.div_mod a d ltac:(lia)) as Ha.
  pose proof (Z.mod_pos_bound a d Hd) as Hr.
  set (q := a / d) in *. set (r := a mod d) in *.
  assert (Ha' : a - q * d = r) by lia.
  assert (Ha'' : a - (q + 1) * d = r - d) by lia.
  destruct (Z.ltb_spec (2 * r) d); [lia|].
  destruct (Z.ltb_spec d (2 * r)); [lia|].
  destruct (Z.even q) eqn:Hq; [easy|]. intros _.
  rewrite Z.even_add, Hq. reflexivity.
Qed.

Lemma round_half_even_nonneg (a d : Z) :
  0 <= a -> 0 < d -> 0 <= round_half_even a d.
Proof.
  intros Ha Hd. unfold round_half_even.
  pose proof (Z.div_pos a d Ha Hd).
  destruct (_ <? _); [lia|]. destruct (_ <? _); [lia|].
  destruct (Z.even _); lia.
Qed.

Lemma round53_small (n : Z) : n < 2 ^ 53 -> round53 n = n.
Proof. intros H. unfold round53. now apply Z.ltb_lt in H as ->. Qed.

(** C9.  A run that succeeds, having written [b] bytes in all, prints after
    the path of the file the size [b / 1048576] as Python's division and
    [.2f] give it.  For [b] below [2^53], where the division is exact, what
    is printed is a whole part in decimal, a point and two decimal digits,
    which together read as the number of hundredths nearest to
    [b / 1048576], the even one when two are as near. *)
Theorem size_reported_in_MiB (env : Env) (w w' : World) :
  download_csv env w = (Return true, w') ->
  exists saved,
    fs w' !! csv_path env = Some saved
    /\ stdout w' =
       stdout w ++
       [py "Downloading latest CSV from API...";
        py "✓ CSV downloaded successfully!";
        py "  File: " ++ csv_path env;
        py "  Size: "
        ++ format_2f (truediv (Z.of_nat (length saved)) (1024 * 1024))
        ++ py " MB"]
    /\ (Z.of_nat (length saved) < 2 ^ 53 ->
        exists q whole hundredths,
          format_2f (truediv (Z.of_nat (length saved)) (1024 * 1024))
          = whole ++ py "." ++ hundredths
          /\ decimal_value whole = Some (q / 100)
          /\ length hundredths = 2%nat
          /\ decimal_value hundredths = Some (q mod 100)
          /\ 0 <= q
          /\ - 524288 <= 100 * Z.of_nat (length saved) - q * 1048576 <= 524288
          /\ (Z.abs (100 * Z.of_nat (length saved) - q * 1048576) = 524288 ->
              Z.even q = true)).
Proof.
  intros H.
  apply download_csv_True_inv in H as (r & b & _ & _ & _ & _ & _ & -> & _).
  exists b. split; [|split].
  - unfold success_world; simpl. apply lookup_insert_eq.
  - reflexivity.
  - intros Hb.
    set (q := round_half_even (100 * Z.of_nat (length b)) 1048576).
    pose proof (round_half_even_nearest (100 * Z.of_nat (length b)) 1048576
                  ltac:(lia)) as Hnear.
    pose proof (round_half_even_tie (100 * Z.of_nat (length b)) 1048576
                  ltac:(lia)) as Htie.
    pose proof (round_half_even_nonneg (100 * Z.of_nat (length b)) 1048576
                  ltac:(lia) ltac:(lia)) as Hpos.
    fold q in Hnear, Htie, Hpos.
    destruct (decimal_value_two_digits (q mod 100)) as [Hd Hl].
    { apply Z.mod_pos_bound. lia. }
    exists q, (str_of_int (q / 100)), (two_digits (q mod 100)).
    split; [|split; [|split; [|split; [|split; [|split]]]]].
    + unfold format_2f, truediv. cbn [fnum fden].
      now rewrite round53_small by assumption.
    + apply decimal_value_str_of_int. apply Z.div_pos; lia.
    + exact Hl.
    + exact Hd.
    + exact Hpos.
    + lia.
    + intros Ht. apply Htie. lia.
Qed.

Lemma size_reported_in_MiB_witness :
  let env := sample_env (Return (ok_response (Some (Registered utf_8))
                                   [sample_csv])) in
  let w' := success_world env empty_world sample_csv in
  exists saved,
    fs w' !! csv_path env = Some saved
    /\ stdout w' =
       stdout empty_world ++
       [py "Downloading latest CSV from API...";
        py "✓ CSV downloaded successfully!";
        py "  File: " ++ csv_path env;
        py "  Size: "
        ++ format_2f (truediv (Z.of_nat (length saved)) (1024 * 1024))
        ++ py " MB"]
    /\ (Z.of_nat (length saved) < 2 ^ 53 ->
        exists q whole hundredths,
          format_2f (truediv (Z.of_nat (length saved)) (1024 * 1024))
          = whole ++ py "." ++ hundredths
          /\ decimal_value whole = Some (q / 100)
          /\ length hundredths = 2%nat
          /\ decimal_value hundredths = Some (q mod 100)
          /\ 0 <= q
          /\ - 524288 <= 100 * Z.of_nat (length saved) - q * 1048576 <= 524288
          /\ (Z.abs (100 * Z.of_nat (length saved) - q * 1048576) = 524288 ->
              Z.even q = true)).
Proof.
  cbv zeta.
  apply (size_reported_in_MiB
           (sample_env (Return (ok_response (Some (Registered utf_8))
                                  [sample_csv])))
           empty_world).
  apply (download_csv_True _ empty_world
           (ok_response (Some (Registered utf_8)) [sample_csv]) sample_csv);
    reflexivity.
Defined.

(** One and a half mebibytes, and a size on the edge of a hundredth. *)
Example size_examples :
  format_2f (truediv 1572864 (1024 * 1024)) = py "1.50"
  /\ format_2f (truediv 15 (1024 * 1024)) = py "0.00"
  /\ format_2f (truediv 5242 (1024 * 1024)) = py "0.00"
  /\ format_2f (truediv 5243 (1024 * 1024)) = py "0.01"
  /\ format_2f (truediv 131072 (1024 * 1024)) = py "0.12"
  /\ format_2f (truediv 393216 (1024 * 1024)) = py "0.38"
  /\ format_2f (truediv 12345678901 (1024 * 1024)) = py "11773.76".
Proof. vm_compute. repeat split. Qed.

(** ** C10: what is in the file *)



(** The count is of the bytes written, not of the bytes received: five for
    the four of ["Jos\xe9"]. *)
Example count_is_of_bytes_written :
  fst (save_response (sample_env (Return jose_latin_1)) jose_latin_1
         (py "/srv/PetMatch/pets.csv") empty_world) = Return 5
  /\ length (body jose_latin_1) = 4%nat.
Proof. vm_compute. split; reflexivity. Qed.

(** A sequence cut by the boundary of two chunks is still one character:
    the euro sign in three bytes, two in one chunk and one in the next. *)
Example split_sequence :
  fs (snd (download_csv
             (sample_env (Return (ok_response (Some (Registered utf_8))
                                    [[0xE2; 0x82]; [0xAC]])))
             empty_world)) !! py "/srv/PetMatch/pets.csv"
  = Some [0xE2; 0x82; 0xAC].
Proof. vm_compute. reflexivity. Qed.

(** * Further properties of the script *)

(** ** Failures that are reported *)

(** X1.  When [requests.get] itself raises (no connection, a timeout, too
    many redirects), no file is changed and the run does not succeed; with
    no response attached to the exception it returns [False] after one
    line naming the error. *)
Theorem request_failure_keeps_files (env : Env) (w : World) (e : exn) :
  http_get env the_request = Raise e ->
  fs (snd (download_csv env w)) = fs w
  /\ fst (download_csv env w) <> Return true
  /\ (exn_response e = None ->
      download_csv env w =
      (Return false,
       put_lines w [py "Downloading latest CSV from API..."; failure_line e])).
Proof.
  intros Hg. rewrite download_csv_cases, Hg. cbv zeta. repeat split.
  - now rewrite dispatch_handlers_fs.
  - apply dispatch_handlers_not_True.
  - intros He. rewrite dispatch_no_response_run by assumption.
    now rewrite put_lines_app.
Qed.

Lemma request_failure_keeps_files_witness :
  fs (snd (download_csv (sample_env (Raise connection_refused)) old_world))
  = fs old_world
  /\ fst (download_csv (sample_env (Raise connection_refused)) old_world)
     <> Return true
  /\ (exn_response connection_refused = None ->
      download_csv (sample_env (Raise connection_refused)) old_world =
      (Return false,
       put_lines old_world [py "Downloading latest CSV from API...";
                            failure_line connection_refused])).
Proof.
  apply (request_failure_keeps_files (sample_env (Raise connection_refused))
           old_world connection_refused).
  reflexivity.
Defined.

(** X2.  When [requests.get] raises a [RequestException] that carries a
    response, no file is changed, and the run prints the error and the
    status code of that response; when the text of the response can be
    read and its first 200 characters can be printed, it prints them and
    returns [False]. *)
Theorem request_failure_with_response (env : Env) (w : World) (e : exn)
  (r : Response) :
  http_get env the_request = Raise e ->
  is_RequestException (exn_cls e) = true ->
  exn_response e = Some r ->
  fs (snd (download_csv env w)) = fs w
  /\ (exists rest,
        stdout (snd (download_csv env w)) =
        stdout w
        ++ [py "Downloading latest CSV from API...";
            py "✗ Error downloading CSV: " ++ py (exn_msg e);
            py "  Status code: " ++ str_of_int (status_code r)]
        ++ rest)
  /\ (forall t, text r = Return t -> printable (take 200 t) = true ->
        download_csv env w =
        (Return false,
         put_lines w [py "Downloading latest CSV from API...";
                      py "✗ Error downloading CSV: " ++ py (exn_msg e);
                      py "  Status code: " ++ str_of_int (status_code r);
                      py "  Response: " ++ take 200 t])).
Proof.
  intros Hg Hc He.
  rewrite download_csv_cases, Hg. cbv zeta.
  split; [now rewrite dispatch_handlers_fs|].
  rewrite dispatch_handlers, Hc, on_request_exception_run, He. cbv zeta.
  split.
  - destruct (text r) as [t|e']; [destruct (printable (take 200 t))|];
      cbn [snd put_lines stdout]; rewrite <- app_assoc; cbn [app].
    + now exists [py "  Response: " ++ take 200 t].
    + now exists [].
    + now exists [].
  - intros t -> ->. now rewrite put_lines_app.
Qed.

Lemma request_failure_with_response_witness :
  let e := {| exn_cls := TooManyRedirects;
              exn_msg := "Exceeded 30 redirects.";
              exn_response := Some multiple_choices |} in
  fs (snd (download_csv (sample_env (Raise e)) old_world)) = fs old_world
  /\ download_csv (sample_env (Raise e)) old_world =
     (Return false,
      put_lines old_world
        [py "Downloading latest CSV from API...";
         py "✗ Error downloading CSV: " ++ py (exn_msg e);
         py "  Status code: " ++ str_of_int (status_code multiple_choices);
         py "  Response: " ++ take 200 (py "pets.csv.gz")]).
Proof.
  cbv zeta.
  destruct (request_failure_with_response
              (sample_env (Raise {| exn_cls := TooManyRedirects;
                                    exn_msg := "Exceeded 30 redirects.";
                                    exn_response := Some multiple_choices |}))
              old_world _ multiple_choices eq_refl eq_refl eq_refl)
    as (H1 & _ & H3).
  split; [exact H1|]. apply (H3 (py "pets.csv.gz")); reflexivity.
Defined.

(** X3.  An exception comes out of [download_csv] in these cases and no
    other: the exception being reported is a [RequestException] carrying a
    response (the [HTTPError] of a 4xx or 5xx status, or one [requests.get]
    raised), and either reading that response's text raises, or the first
    200 characters of the text cannot be printed; what comes out is that
    second exception. *)
Theorem escapes_only_from_error_body (env : Env) (w : World) (e : exn) :
  fst (download_csv env w) = Raise e <->
  exists r,
    (text r = Raise e
     \/ exists t, text r = Return t
                  /\ printable (take 200 t) = false
                  /\ e = unicode_encode_error
                           (py "  Response: " ++ take 200 t))
    /\ ((http_get env the_request = Return r
         /\ is_error_status (status_code r) = true)
        \/ (exists e0, http_get env the_request = Raise e0
                       /\ is_RequestException (exn_cls e0) = true
                       /\ exn_response e0 = Some r)).
Proof.
  set (escapes r :=
         text r = Raise e
         \/ exists t, text r = Return t
                      /\ printable (take 200 t) = false
                      /\ e = unicode_encode_error
                               (py "  Response: " ++ take 200 t)).
  assert (Hd : forall e0 w1,
            fst (dispatch handlers e0 w1) = Raise e <->
            exists r, escapes r
                      /\ is_RequestException (exn_cls e0) = true
                      /\ exn_response e0 = Some r).
  { intros e0 w1. unfold escapes.
    rewrite dispatch_handlers, on_request_exception_run, on_exception_run.
    cbv zeta.
    destruct (is_RequestException (exn_cls e0)).
    2:{ split; [discriminate|]. now intros (r & _ & ? & _). }
    destruct (exn_response e0) as [r|].
    2:{ split; [discriminate|]. now intros (r & _ & _ & ?). }
    destruct (text r) as [t|e'] eqn:Ht.
    - destruct (printable (take 200 t)) eqn:Hp; cbn [fst].
      + split; [discriminate|].
        intros (r' & [Hr'|(t' & Hr' & Hp' & _)] & _ & [= <-]); congruence.
      + split.
        * intros [= <-]. exists r. split; [|now split]. right. now exists t.
        * intros (r' & [Hr'|(t' & Hr' & Hp' & ->)] & _ & [= <-]);
            congruence.
    - cbn [fst]. split.
      + intros [= <-]. exists r. split; [now left|now split].
      + intros (r' & [Hr'|(t' & Hr' & _)] & _ & [= <-]); congruence. }
  rewrite download_csv_cases. cbv zeta.
  destruct (http_get env the_request) as [r|e0] eqn:Hg.
  2:{ rewrite Hd. split.
      - intros (r & Ht & Hc & He). exists r. split; [assumption|].
        right. now exists e0.
      - intros (r & Ht & [[? _]|(e1 & [= <-] & Hc & He)]); [discriminate|].
        now exists r. }
  destruct (is_error_status (status_code r)) eqn:Hs.
  { rewrite Hd. cbn [exn_cls exn_response is_RequestException]. split.
    - intros (r' & Ht & _ & [= <-]). exists r. split; [assumption|]. now left.
    - intros (r' & Ht & [[[= <-] _]|(e1 & ? & _)]); [|discriminate].
      now exists r. }
  destruct (save_response_frame env r (csv_path env)
              (put_lines w [py "Downloading latest CSV from API..."]))
    as (_ & _ & He).
  destruct (save_response env r (csv_path env) _) as [[n|e1] w2];
    cbn [fst snd] in *.
  - destruct (printable (csv_path env)).
    + split; [discriminate|].
      intros (r' & _ & [[[= <-] ?]|(e2 & ? & _)]); congruence.
    + rewrite dispatch_handlers_no_response by reflexivity.
      split; [discriminate|].
      intros (r' & _ & [[[= <-] ?]|(e2 & ? & _)]); congruence.
  - rewrite dispatch_handlers_no_response by now apply He.
    split; [discriminate|].
    intros (r' & _ & [[[= <-] ?]|(e2 & ? & _)]); congruence.
Qed.

(** The second way out: the body of a 500 decodes to a lone surrogate,
    which the handler cannot print. *)
Example unprintable_excerpt_escapes :
  text surrogate_error = Return [0xD800]
  /\ download_csv (sample_env (Return surrogate_error)) old_world =
     (Raise {| exn_cls := UnicodeEncodeError;
               exn_msg := "'utf-8' codec can't encode character '\ud800' in position 12: surrogates not allowed";
               exn_response := None |},
      put_lines old_world
        [py "Downloading latest CSV from API...";
         py "✗ Error downloading CSV: "
         ++ py (http_error_msg surrogate_error);
         py "  Status code: 500"]).
Proof.
  split; [reflexivity|].
  rewrite (download_csv_error_status (sample_env (Return surrogate_error))
             old_world surrogate_error eq_refl)
    by (simpl; lia).
  reflexivity.
Qed.

(** X4.  When the output file cannot be opened for writing, the run
    returns [False] after one line naming the error, and no file is
    changed. *)
Theorem open_failure_reported (env : Env) (w : World) (r : Response)
  (f : fault) :
  http_get env the_request = Return r ->
  is_error_status (status_code r) = false ->
  open_error env (csv_path env) = Some f ->
  download_csv env w =
  (Return false,
   put_lines w [py "Downloading latest CSV from API...";
                failure_line (exn_of_fault f)])
  /\ fs (snd (download_csv env w)) = fs w.
Proof.
  intros Hg Hs Ho.
  assert (H : download_csv env w =
              (Return false,
               put_lines w [py "Downloading latest CSV from API...";
                            failure_line (exn_of_fault f)])).
  { rewrite download_csv_cases, Hg, Hs. cbv zeta.
    rewrite save_response_run, Ho.
    rewrite dispatch_no_response_run by reflexivity.
    now rewrite put_lines_app. }
  rewrite H. now split.
Qed.

Lemma open_failure_reported_witness :
  let env := read_only_env (Return (ok_response (Some (Registered utf_8))
                                      [sample_csv])) in
  download_csv env old_world =
  (Return false,
   put_lines old_world
     [py "Downloading latest CSV from API...";
      failure_line (exn_of_fault {| fault_class := OSError;
                                    fault_msg := "Permission denied" |})])
  /\ fs (snd (download_csv env old_world)) = fs old_world.
Proof.
  cbv zeta.
  apply (open_failure_reported
           (read_only_env (Return (ok_response (Some (Registered utf_8))
                                     [sample_csv])))
           old_world (ok_response (Some (Registered utf_8)) [sample_csv]));
    reflexivity.
Defined.

(** ** Failures after the file is opened *)

(** X5.  When the transfer breaks after the file is opened, the run returns
    [False] and the file is left holding what had been decoded from the
    bytes received, encoded as UTF-8: the earlier file is gone and the new
    one is partial. *)
Theorem cut_transfer_leaves_partial_file (env : Env) (w : World)
  (r : Response) (c : codec) (f : fault) (saved : bytes) :
  http_get env the_request = Return r ->
  is_error_status (status_code r) = false ->
  open_error env (csv_path env) = None ->
  encoding r = Some (Registered c) ->
  raw_error r = Some f ->
  UTF8.encode (decoded_so_far c (body r)) = Some saved ->
  download_csv env w =
  (Return false,
   {| fs := <[csv_path env := saved]> (fs w);
      stdout := stdout w ++ [py "Downloading latest CSV from API...";
                             failure_line (exn_of_fault f)] |}).
Proof.
  intros Hg Hs Ho He Hr Hsaved.
  rewrite download_csv_cases, Hg, Hs. cbv zeta.
  rewrite save_response_run, Ho. cbv zeta.
  destruct (iter_content_registered_cut r c 8192 f He Hr)
    as (outs & Hit & Hne & Hc).
  rewrite Hit. cbn [fst snd].
  assert (Hx : fs (put_file (put_lines w [py "Downloading latest CSV from API..."])
                     (csv_path env) []) !! csv_path env = Some [])
    by (unfold put_file; simpl; apply lookup_insert_eq).
  pose proof (for_items_text outs (csv_path env) 0 _ [] Hne Hx) as Hf.
  rewrite Hc, Hsaved in Hf. rewrite Hf.
  rewrite dispatch_no_response_run by reflexivity.
  unfold put_lines, put_file. cbn [fs stdout app].
  now rewrite insert_insert_eq, <- app_assoc.
Qed.

Lemma cut_transfer_leaves_partial_file_witness :
  download_csv (sample_env (Return cut_transfer)) old_world =
  (Return false,
   {| fs := <[csv_path (sample_env (Return cut_transfer))
              := bytes_of_string "name,age"]> (fs old_world);
      stdout := stdout old_world
                ++ [py "Downloading latest CSV from API...";
                    failure_line
                      (exn_of_fault {| fault_class := ChunkedEncodingError;
                                       fault_msg := "Connection broken" |})]
   |}).
Proof.
  apply (cut_transfer_leaves_partial_file
           (sample_env (Return cut_transfer)) old_world cut_transfer utf_8);
    reflexivity.
Defined.

(** X6.  When the response declares no encoding and its body is not empty,
    the chunks stay [bytes], which a text file refuses: the run returns
    [False], and the file, opened before the first chunk, is left empty. *)
Theorem undeclared_encoding_empties_file (env : Env) (w : World)
  (r : Response) :
  http_get env the_request = Return r ->
  is_error_status (status_code r) = false ->
  open_error env (csv_path env) = None ->
  encoding r = None ->
  nonempty (body r) = true ->
  download_csv env w =
  (Return false,
   {| fs := <[csv_path env := []]> (fs w);
      stdout := stdout w
                ++ [py "Downloading latest CSV from API...";
                    py "✗ Unexpected error: "
                    ++ py "write() argument must be str, not bytes"] |}).
Proof.
  intros Hg Hs Ho He Hb.
  rewrite download_csv_cases, Hg, Hs. cbv zeta.
  rewrite save_response_run, Ho. cbv zeta.
  unfold iter_content, stream_decode_response_unicode. rewrite He.
  cbn [fst snd]. rewrite for_items_bytes_raise by exact Hb.
  rewrite dispatch_no_response_run by reflexivity.
  unfold put_lines, put_file, failure_line, write_bytes_error.
  cbn [fs stdout exn_cls exn_msg is_RequestException].
  now rewrite <- app_assoc.
Qed.

Lemma undeclared_encoding_empties_file_witness :
  let env := sample_env (Return (ok_response None [sample_csv])) in
  download_csv env old_world =
  (Return false,
   {| fs := <[csv_path env := []]> (fs old_world);
      stdout := stdout old_world
                ++ [py "Downloading latest CSV from API...";
                    py "✗ Unexpected error: "
                    ++ py "write() argument must be str, not bytes"] |}).
Proof.
  cbv zeta.
  apply (undeclared_encoding_empties_file
           (sample_env (Return (ok_response None [sample_csv]))) old_world
           (ok_response None [sample_csv])); reflexivity.
Defined.

(** X7.  When the response declares an encoding Python has no codec for,
    the iterator raises [LookupError] on its first step, after the file is
    opened: the run returns [False] and leaves the file empty. *)
Theorem unknown_charset_empties_file (env : Env) (w : World) (r : Response)
  (name : String.string) :
  http_get env the_request = Return r ->
  is_error_status (status_code r) = false ->
  open_error env (csv_path env) = None ->
  encoding r = Some (Unregistered name) ->
  download_csv env w =
  (Return false,
   {| fs := <[csv_path env := []]> (fs w);
      stdout := stdout w
                ++ [py "Downloading latest CSV from API...";
                    py "✗ Unexpected error: "
                    ++ py ("unknown encoding: " +++ name)] |}).
Proof.
  intros Hg Hs Ho He.
  rewrite download_csv_cases, Hg, Hs. cbv zeta.
  rewrite save_response_run, Ho. cbv zeta.
  unfold iter_content, stream_decode_response_unicode. rewrite He.
  cbn [fst snd for_items]. cbv [mret M_ret].
  rewrite dispatch_no_response_run by reflexivity.
  unfold put_lines, put_file, failure_line.
  cbn [fs stdout exn_cls exn_msg is_RequestException].
  now rewrite <- app_assoc.
Qed.

Lemma unknown_charset_empties_file_witness :
  let r := ok_response (Some (Unregistered "x-pets")) [sample_csv] in
  download_csv (sample_env (Return r)) old_world =
  (Return false,
   {| fs := <[csv_path (sample_env (Return r)) := []]> (fs old_world);
      stdout := stdout old_world
                ++ [py "Downloading latest CSV from API...";
                    py "✗ Unexpected error: "
                    ++ py "unknown encoding: x-pets"] |}).
Proof.
  cbv zeta.
  apply (unknown_charset_empties_file
           (sample_env (Return (ok_response (Some (Unregistered "x-pets"))
                                  [sample_csv])))
           old_world
           (ok_response (Some (Unregistered "x-pets")) [sample_csv])
           "x-pets"); reflexivity.
Defined.

(** ** What the UTF-8 decoder gives can always be written *)

(** X8.  A response that declares UTF-8 is always saved, well-formed or
    not, once the status is accepted, the file opens and the transfer
    completes: bytes that are not UTF-8 are replaced, never refused.  The
    file is well-formed UTF-8, and it is the body byte for byte exactly
    when the body was well-formed.  The run returns [True] when the output
    path can be printed, and [False], with the file saved all the same,
    when not. *)
Theorem utf_8_response_always_saved (env : Env) (w : World) (r : Response) :
  http_get env the_request = Return r ->
  is_error_status (status_code r) = false ->
  open_error env (csv_path env) = None ->
  raw_error r = None ->
  encoding r = Some (Registered utf_8) ->
  exists saved,
    fs (snd (download_csv env w)) = <[csv_path env := saved]> (fs w)
    /\ download_csv env w =
       (if printable (csv_path env)
        then (Return true, success_world env w saved)
        else (Return false, saved_unprinted env w saved))
    /\ UTF8.wf saved = true
    /\ (saved = body r <-> UTF8.wf (body r) = true).
Proof.
  intros Hg Hs Ho Hr He.
  destruct (scalars_encode _ (decode_utf_8_scalars (body r))) as [saved Hb].
  assert (Hre : reencoded r = Some saved) by (unfold reencoded; now rewrite He).
  exists saved. split; [|split; [|split; [|split]]].
  - now apply (download_csv_saved env w r saved).
  - destruct (printable (csv_path env)) eqn:Hp.
    + now apply download_csv_True with (r := r).
    + now apply download_csv_unprinted with (r := r).
  - now apply UTF8_facts.wf_encode in Hb.
  - intros <-. now apply UTF8_facts.wf_encode in Hb.
  - intros Hwf. apply UTF8_facts.encode_decode_wf in Hwf. congruence.
Qed.

Lemma utf_8_response_always_saved_witness :
  let r := ok_response (Some (Registered utf_8)) [[74; 111; 115; 233]] in
  exists saved,
    fs (snd (download_csv (sample_env (Return r)) empty_world))
    = <[csv_path (sample_env (Return r)) := saved]> (fs empty_world)
    /\ download_csv (sample_env (Return r)) empty_world =
       (if printable (csv_path (sample_env (Return r)))
        then (Return true,
              success_world (sample_env (Return r)) empty_world saved)
        else (Return false,
              saved_unprinted (sample_env (Return r)) empty_world saved))
    /\ UTF8.wf saved = true
    /\ (saved = body r <-> UTF8.wf (body r) = true).
Proof.
  cbv zeta.
  apply (utf_8_response_always_saved
           (sample_env (Return (ok_response (Some (Registered utf_8))
                                  [[74; 111; 115; 233]])))
           empty_world
           (ok_response (Some (Registered utf_8)) [[74; 111; 115; 233]]));
    reflexivity.
Defined.

(** The byte [0xE9] alone is not UTF-8: it is saved as [U+FFFD]. *)
Example malformed_byte_replaced :
  fs (snd (download_csv
             (sample_env (Return (ok_response (Some (Registered utf_8))
                                    [[74; 111; 115; 233]])))
             empty_world)) !! py "/srv/PetMatch/pets.csv"
  = Some [74; 111; 115; 0xEF; 0xBF; 0xBD].
Proof. vm_compute. reflexivity. Qed.

(** A path that cannot be printed: the file is saved, the summary stops
    after its first line, and the run returns [False]. *)
Example unprintable_path_saved :
  let env := surrogate_path_env
               (Return (ok_response (Some (Registered utf_8)) [sample_csv])) in
  csv_path env = py "/srv/" ++ [0xDCE9] ++ py "/pets.csv"
  /\ fst (download_csv env empty_world) = Return false
  /\ fs (snd (download_csv env empty_world)) !! csv_path env
     = Some sample_csv
  /\ stdout (snd (download_csv env empty_world)) =
     [py "Downloading latest CSV from API...";
      py "✓ CSV downloaded successfully!";
      py "✗ Unexpected error: 'utf-8' codec can't encode character '\udce9' in position 13: surrogates not allowed"].
Proof. cbv zeta. vm_compute. repeat split. Qed.

(** ** ISO-8859-1 *)

Lemma encode_latin_1_length (bs : bytes) :
  Forall (fun b => 0 <= b < 256) bs ->
  exists saved,
    UTF8.encode bs = Some saved
    /\ length saved = (length bs + length (high_bytes bs))%nat.
Proof.
  induction 1 as [|b r Hb _ (saved & Hs & Hl)]; [now exists []|].
  cbn [UTF8.encode high_bytes List.filter]. fold (high_bytes r).
  rewrite Hs. unfold UTF8.encode_cp.
  destruct (Z.ltb_spec b 0); [lia|].
  destruct (Z.leb_spec 128 b), (Z.ltb_spec b 128); try lia.
  - destruct (Z.ltb_spec b 2048); [|lia].
    eexists. split; [reflexivity|]. cbn [length app]. lia.
  - eexists. split; [reflexivity|]. cbn [length app]. lia.
Qed.

(** X9.  A response that declares ISO-8859-1 is always saved, under the
    same conditions, and the file has one byte more than the body for
    every byte of 128 and more in it: the size counted and printed is that
    of the file, not of the body.  The run returns [True] when the output
    path can be printed, and [False], with the file saved all the same,
    when not. *)
Theorem latin_1_response_size (env : Env) (w : World) (r : Response) :
  http_get env the_request = Return r ->
  is_error_status (status_code r) = false ->
  open_error env (csv_path env) = None ->
  raw_error r = None ->
  encoding r = Some (Registered latin_1) ->
  Forall (fun b => 0 <= b < 256) (body r) ->
  exists saved,
    fs (snd (download_csv env w)) = <[csv_path env := saved]> (fs w)
    /\ download_csv env w =
       (if printable (csv_path env)
        then (Return true, success_world env w saved)
        else (Return false, saved_unprinted env w saved))
    /\ length saved = (length (body r) + length (high_bytes (body r)))%nat.
Proof.
  intros Hg Hs Ho Hr He Hb.
  destruct (encode_latin_1_length (body r) Hb) as (saved & Hsaved & Hl).
  assert (Hre : reencoded r = Some saved)
    by (unfold reencoded; now rewrite He, decode_latin_1).
  exists saved. split; [|split; [|assumption]].
  - now apply (download_csv_saved env w r saved).
  - destruct (printable (csv_path env)) eqn:Hp.
    + now apply download_csv_True with (r := r).
    + now apply download_csv_unprinted with (r := r).
Qed.

Lemma latin_1_response_size_witness :
  exists saved,
    fs (snd (download_csv (sample_env (Return jose_latin_1)) empty_world))
    = <[csv_path (sample_env (Return jose_latin_1)) := saved]> (fs empty_world)
    /\ download_csv (sample_env (Return jose_latin_1)) empty_world =
       (if printable (csv_path (sample_env (Return jose_latin_1)))
        then (Return true,
              success_world (sample_env (Return jose_latin_1)) empty_world
                saved)
        else (Return false,
              saved_unprinted (sample_env (Return jose_latin_1)) empty_world
                saved))
    /\ length saved
       = (length (body jose_latin_1)
          + length (high_bytes (body jose_latin_1)))%nat.
Proof.
  apply (latin_1_response_size (sample_env (Return jose_latin_1)) empty_world
           jose_latin_1); try reflexivity.
  repeat constructor; lia.
Defined.

(** ** Chunks, and running again *)

(** X10.  For an encoding whose decoder reads byte by byte (UTF-8,
    ISO-8859-1), and when none or an unknown one is declared, how the body
    is cut into chunks does not matter to a run that succeeds: a response
    with the same status, declared encoding and body, received in full in
    other chunks, gives the same return value, the same files and the same
    output.  A decoder that works chunk by chunk is left out: what it gives
    can depend on the chunks. *)
Theorem chunking_does_not_matter (env : Env) (w : World) (r r' : Response) :
  http_get env the_request = Return r ->
  (forall d, encoding r <> Some (Chunkwise d)) ->
  status_code r' = status_code r ->
  encoding r' = encoding r ->
  body r' = body r ->
  raw_error r' = None ->
  fst (download_csv env w) = Return true ->
  download_csv (answering env r') w = download_csv env w.
Proof.
  intros Hg Hd Hsc He Hb Hr' H.
  destruct (download_csv env w) as [o w1] eqn:Hrun. cbn [fst] in H. subst o.
  apply download_csv_True_inv in Hrun
    as (r0 & b & Hg0 & Hs & Ho & Hr & Hre & -> & Hp).
  rewrite Hg in Hg0. injection Hg0 as <-.
  assert (Hre' : reencoded r' = Some b).
  { unfold reencoded in *. rewrite He, Hb.
    destruct (encoding r) as [[c|d|name]|]; try assumption.
    now contradiction (Hd d). }
  rewrite (download_csv_True (answering env r') w r' b eq_refl);
    try assumption.
  - reflexivity.
  - now rewrite Hsc.
Qed.

Lemma chunking_does_not_matter_witness :
  download_csv
    (answering (sample_env (Return (ok_response (Some (Registered utf_8))
                                      [[0xE2; 0x82; 0xAC]])))
       (ok_response (Some (Registered utf_8)) [[0xE2]; []; [0x82; 0xAC]]))
    old_world
  = download_csv
      (sample_env (Return (ok_response (Some (Registered utf_8))
                             [[0xE2; 0x82; 0xAC]])))
      old_world.
Proof.
  apply (chunking_does_not_matter
           (sample_env (Return (ok_response (Some (Registered utf_8))
                                  [[0xE2; 0x82; 0xAC]])))
           old_world
           (ok_response (Some (Registered utf_8)) [[0xE2; 0x82; 0xAC]])
           (ok_response (Some (Registered utf_8)) [[0xE2]; []; [0x82; 0xAC]]));
    try reflexivity.
  intros d. discriminate.
Defined.

(** X11.  Running again against the same server after a run that succeeded
    succeeds again and leaves every file as the first run left it. *)
Theorem second_run_changes_nothing (env : Env) (w : World) :
  fst (download_csv env w) = Return true ->
  fst (download_csv env (snd (download_csv env w))) = Return true
  /\ fs (snd (download_csv env (snd (download_csv env w))))
     = fs (snd (download_csv env w)).
Proof.
  intros H.
  destruct (download_csv env w) as [o w1] eqn:Hrun. cbn [fst snd] in *.
  subst o.
  apply download_csv_True_inv in Hrun
    as (r & b & Hg & Hs & Ho & Hr & Hre & -> & Hp).
  rewrite (download_csv_True env _ r b Hg Hs Ho Hr Hre Hp).
  split; [reflexivity|].
  unfold success_world. cbn [fst snd fs]. apply insert_insert_eq.
Qed.

Lemma second_run_changes_nothing_witness :
  let env := sample_env (Return (ok_response (Some (Registered utf_8))
                                   [sample_csv])) in
  fst (download_csv env (snd (download_csv env old_world))) = Return true
  /\ fs (snd (download_csv env (snd (download_csv env old_world))))
     = fs (snd (download_csv env old_world)).
Proof.
  cbv zeta.
  apply (second_run_changes_nothing
           (sample_env (Return (ok_response (Some (Registered utf_8))
                                  [sample_csv])))
           old_world).
  vm_compute; reflexivity.
Defined.

(** ** The process and its output *)

(** X12.  The process ends with status 0 exactly when the whole body,
    decoded and encoded again, is in the output file and the summary is
    printed; the script adds nothing to what [download_csv] did. *)
Theorem exit_zero_means_saved (env : Env) (w : World) :
  exit_status (fst (main env w)) = 0 <->
  exists r saved,
    http_get env the_request = Return r
    /\ is_error_status (status_code r) = false
    /\ open_error env (csv_path env) = None
    /\ raw_error r = None
    /\ reencoded r = Some saved
    /\ snd (main env w) = success_world env w saved.
Proof.
  unfold main. split.
  - destruct (download_csv env w) as [[[|]|e] w1] eqn:Hrun;
      cbn [fst snd exit_status]; try discriminate.
    intros _. apply download_csv_True_inv in Hrun
      as (r & b & Hg & Hs & Ho & Hr & Hre & -> & _).
    now exists r, b.
  - intros (r & b & Hg & Hs & Ho & Hr & Hre & Hw).
    destruct (printable (csv_path env)) eqn:Hp.
    + now rewrite (download_csv_True env w r b Hg Hs Ho Hr Hre Hp).
    + rewrite (download_csv_unprinted env w r b Hg Hs Ho Hr Hre Hp) in Hw.
      cbn [snd] in Hw. now apply saved_unprinted_not_success in Hw.
Qed.

(** X13.  Every run adds to the output, after what was there, the line of
    progress and then lines of its own.  When the run returns [True] these
    are the three lines of the summary, the first opening with the check
    mark.  In every other case there is among them a line that opens with
    the ballot cross, with nothing before it, or the first line of the
    summary alone when the path of the file could not be printed, and with
    at most two lines after it. *)
Theorem output_of_a_run (env : Env) (w : World) :
  exists rest,
    stdout (snd (download_csv env w))
    = stdout w ++ py "Downloading latest CSV from API..." :: rest
    /\ (fst (download_csv env w) = Return true ->
        exists total_size,
          rest = success_lines (csv_path env) total_size
          /\ (head rest ≫= head) = Some CHECK_MARK)
    /\ (fst (download_csv env w) <> Return true ->
        exists before line after,
          rest = before ++ line :: after
          /\ (before = [] \/ before = [py "✓ CSV downloaded successfully!"])
          /\ head line = Some BALLOT_X
          /\ (length after <= 2)%nat).
Proof.
  assert (Hd : forall e w1,
            exists line after,
              stdout (snd (dispatch handlers e w1))
              = stdout w1 ++ line :: after
              /\ (length after <= 2)%nat /\ head line = Some BALLOT_X).
  { intros e w1.
    rewrite dispatch_handlers, on_request_exception_run, on_exception_run.
    cbv zeta.
    destruct (is_RequestException _) eqn:Hc.
    2:{ exists (py "✗ Unexpected error: " ++ py (exn_msg e)), [].
        repeat split. simpl; lia. }
    destruct (exn_response e) as [r|].
    2:{ exists (py "✗ Error downloading CSV: " ++ py (exn_msg e)), [].
        repeat split. simpl; lia. }
    destruct (text r) as [t|e']; [destruct (printable (take 200 t))|].
    - exists (py "✗ Error downloading CSV: " ++ py (exn_msg e)),
        [py "  Status code: " ++ str_of_int (status_code r);
         py "  Response: " ++ take 200 t].
      repeat split. simpl; lia.
    - exists (py "✗ Error downloading CSV: " ++ py (exn_msg e)),
        [py "  Status code: " ++ str_of_int (status_code r)].
      repeat split. simpl; lia.
    - exists (py "✗ Error downloading CSV: " ++ py (exn_msg e)),
        [py "  Status code: " ++ str_of_int (status_code r)].
      repeat split. simpl; lia. }
  assert (Hfail : forall e w1 before,
            stdout w1 = stdout w ++ py "Downloading latest CSV from API..."
                                    :: before ->
            before = [] \/ before = [py "✓ CSV downloaded successfully!"] ->
            exists rest,
              stdout (snd (dispatch handlers e w1))
              = stdout w ++ py "Downloading latest CSV from API..." :: rest
              /\ (fst (dispatch handlers e w1) = Return true ->
                  exists total_size,
                    rest = success_lines (csv_path env) total_size
                    /\ (head rest ≫= head) = Some CHECK_MARK)
              /\ (fst (dispatch handlers e w1) <> Return true ->
                  exists before line after,
                    rest = before ++ line :: after
                    /\ (before = []
                        \/ before = [py "✓ CSV downloaded successfully!"])
                    /\ head line = Some BALLOT_X
                    /\ (length after <= 2)%nat)).
  { intros e w1 before Hw1 Hb.
    destruct (Hd e w1) as (line & after & Hs & Hl & Hh).
    exists (before ++ line :: after).
    split; [rewrite Hs, Hw1, <- app_assoc; reflexivity|].
    split.
    - intros H. now apply dispatch_handlers_not_True in H.
    - intros _. now exists before, line, after. }
  rewrite download_csv_cases. cbv zeta.
  destruct (http_get env the_request) as [r|e];
    [|apply (Hfail e _ []); [reflexivity|now left]].
  destruct (is_error_status (status_code r));
    [apply (Hfail _ _ []); [reflexivity|now left]|].
  destruct (save_response_frame env r (csv_path env)
              (put_lines w [py "Downloading latest CSV from API..."]))
    as (Hs & _ & _).
  destruct (save_response env r (csv_path env) _) as [[n|e] w2];
    cbn [fst snd] in *;
    [|apply (Hfail e _ []); [exact Hs|now left]].
  destruct (printable (csv_path env)).
  - exists (success_lines (csv_path env) n).
    split.
    { unfold put_lines. cbn [snd stdout]. rewrite Hs.
      cbn [put_lines stdout]. now rewrite <- app_assoc. }
    split; [intros _; now exists n|].
    intros H. now contradiction H.
  - apply (Hfail _ _ [py "✓ CSV downloaded successfully!"]); [|now right].
    unfold put_lines. cbn [stdout]. rewrite Hs.
    cbn [put_lines stdout]. now rewrite <- app_assoc.
Qed.

(** X14.  A run changes a file only after a response has come with a
    status that is not 4xx or 5xx and the output file has been opened:
    no other run changes any file. *)
Theorem files_change_only_after_accepted_status (env : Env) (w : World) :
  fs (snd (download_csv env w)) <> fs w ->
  exists r,
    http_get env the_request = Return r
    /\ is_error_status (status_code r) = false
    /\ open_error env (csv_path env) = None.
Proof.
  rewrite download_csv_cases. cbv zeta.
  destruct (http_get env the_request) as [r|e] eqn:Hg.
  2:{ rewrite dispatch_handlers_fs. intros H. now contradiction H. }
  destruct (is_error_status (status_code r)) eqn:Hs.
  { rewrite dispatch_handlers_fs. intros H. now contradiction H. }
  rewrite save_response_run.
  destruct (open_error env (csv_path env)) as [f|] eqn:Ho.
  { rewrite dispatch_handlers_fs. intros H. now contradiction H. }
  intros _. now exists r.
Qed.

Lemma files_change_only_after_accepted_status_witness :
  exists r,
    http_get (sample_env (Return not_modified)) the_request = Return r
    /\ is_error_status (status_code r) = false
    /\ open_error (sample_env (Return not_modified))
         (csv_path (sample_env (Return not_modified))) = None.
Proof.
  apply (files_change_only_after_accepted_status
           (sample_env (Return not_modified)) old_world).
  intros H.
  assert (H' : fs (snd (download_csv (sample_env (Return not_modified))
                          old_world))
               !! py "/srv/PetMatch/pets.csv"
               = fs old_world !! py "/srv/PetMatch/pets.csv")
    by now rewrite H.
  vm_compute in H'. discriminate H'.
Defined.

(** X15.  The run asks the server one thing, the GET of [/pets.csv] under
    the base URL with the key in [X-API-Key] and [stream=True], and the
    file system one thing, the output path: two hosts with the script at
    the same place that agree on these two give the same run. *)
Theorem only_the_request_matters (env env' : Env) (w : World) :
  script_file env' = script_file env ->
  getcwd env' = getcwd env ->
  http_get env' the_request = http_get env the_request ->
  open_error env' (csv_path env) = open_error env (csv_path env) ->
  download_csv env' w = download_csv env w.
Proof.
  intros Hf Hc Hg Ho.
  assert (Hp : csv_path env' = csv_path env)
    by (unfold csv_path; now rewrite Hf, Hc).
  rewrite !download_csv_cases, Hg, Hp. cbv zeta.
  destruct (http_get env the_request) as [r|e]; [|reflexivity].
  destruct (is_error_status (status_code r)); [reflexivity|].
  now rewrite !save_response_run, Ho.
Qed.

Lemma only_the_request_matters_witness :
  download_csv
    {| script_file := py "/srv/PetMatch/server/download_csv.py";
       getcwd := py "/home/pets";
       http_get := fun q =>
                     if bool_decide (req_url q = req_url the_request)
                     then Return unauthorized
                     else Return not_modified;
       open_error := fun p =>
                       if bool_decide (p = py "/srv/PetMatch/pets.csv")
                       then None
                       else Some {| fault_class := OSError;
                                    fault_msg := "Permission denied" |} |}
    old_world
  = download_csv (sample_env (Return unauthorized)) old_world.
Proof.
  apply (only_the_request_matters (sample_env (Return unauthorized)));
    reflexivity.
Defined.
